(** * The PPTX editor bridge: local file server and save reconciler

    A shallow embedding of [fileServer.ts] (class [FileServer]) and of the
    save path of [pptxEditorProvider.ts] (class [PptxEditorProvider]),
    followed by the properties of the bridging protocol.

    Conventions of the embedding.
    - The two [Map]s of [FileServer] are finite maps keyed by token.
    - An [async] operation is split at its suspension points: the part that
      runs synchronously in the caller's tick, and the continuation that the
      event loop runs when the awaited event arrives.  What the environment
      delivers (the address a socket was bound to, the outcome of an HTTP
      download, a failing disk) is an explicit argument.
    - Effects on the outside world are returned as a list, in the order the
      program issues them.
    - [console.log] and [console.error] lines are diagnostics only and are
      left out. *)

From Stdlib Require Import ZArith NArith String Ascii List DecimalString Lia.
From Stdlib.Strings Require Import Byte.
From stdpp Require Import base option list strings gmap fin_maps.

Local Open Scope string_scope.

(** ** Strings and numbers as JavaScript has them *)

Module Js.

Local Notation "s ^ t" := (String.append s t) (at level 30, right associativity).

(** The character [U+0022], written by its code point. *)
Definition dquote : string := String "034"%char EmptyString.
Definition backslash : string := String "092"%char EmptyString.

(** [`${n}`] for a non-negative integer [n]: its decimal digits. *)
Definition show_N (n : N) : string := NilZero.string_of_uint (N.to_uint n).

Definition show_Z (z : Z) : string :=
  match z with
  | Zneg p => "-" ^ show_N (Npos p)
  | _ => show_N (Z.to_N z)
  end.

(** [s.startsWith(p)] and [s.substring(n)]. *)
Fixpoint startsWith (s p : string) {struct p} : bool :=
  match p, s with
  | EmptyString, _ => true
  | String a p', String b s' => Ascii.eqb a b && startsWith s' p'
  | String _ _, EmptyString => false
  end.

Fixpoint substring_from (n : nat) (s : string) : string :=
  match n, s with
  | O, _ => s
  | S n', String _ s' => substring_from n' s'
  | S _, EmptyString => EmptyString
  end.

(** [s.toLowerCase()], on the ASCII letters. *)
Definition lower_ascii (c : ascii) : ascii :=
  let n := nat_of_ascii c in
  if (65 <=? n)%nat && (n <=? 90)%nat then ascii_of_nat (n + 32) else c.

Fixpoint toLowerCase (s : string) : string :=
  match s with
  | EmptyString => EmptyString
  | String c s' => String (lower_ascii c) (toLowerCase s')
  end.

(** [a || b] on strings: the empty string is falsy. *)
Definition or_else (a : option string) (b : string) : string :=
  match a with
  | Some (String c s) => String c s
  | _ => b
  end.

(** Truthiness of an optional string property, as tested by [if (x)]. *)
Definition truthy (a : option string) : bool :=
  match a with
  | Some (String _ _) => true
  | _ => false
  end.

(** [buf.toString('hex')]. *)
Definition hex_digit (n : N) : ascii :=
  if (n <? 10)%N then ascii_of_N (48 + n) else ascii_of_N (87 + n).

Definition hex_byte (b : byte) : string :=
  let n := Byte.to_N b in
  String (hex_digit (n / 16)) (String (hex_digit (n mod 16)) EmptyString).

Fixpoint toString_hex (buf : list byte) : string :=
  match buf with
  | [] => EmptyString
  | b :: buf' => hex_byte b ^ toString_hex buf'
  end.

(** The fragment of JSON values that the server serialises. *)
#[warnings="-register-all"] Inductive json :=
| JNum (n : Z)
| JStr (s : string)
| JObj (fields : list (string * json)).

Fixpoint escape (s : string) : string :=
  match s with
  | EmptyString => EmptyString
  | String c s' =>
      if (Ascii.eqb c "034" || Ascii.eqb c "092")%char
      then backslash ^ String c (escape s')
      else String c (escape s')
  end.

Definition quote (s : string) : string := dquote ^ escape s ^ dquote.

Fixpoint JSON_stringify (v : json) : string :=
  match v with
  | JNum n => show_Z n
  | JStr s => quote s
  | JObj fields =>
      let fix members (fs : list (string * json)) : string :=
        match fs with
        | [] => EmptyString
        | [(k, x)] => quote k ^ ":" ^ JSON_stringify x
        | (k, x) :: fs' => quote k ^ ":" ^ JSON_stringify x ^ "," ^ members fs'
        end in
      "{" ^ members fields ^ "}"
  end.

(** [s.replace(/c/g, r)] for a pattern of one character [c] and a
    replacement [r] without [$]. *)
Fixpoint replace_all (c : ascii) (r s : string) : string :=
  match s with
  | EmptyString => EmptyString
  | String a s' =>
      if Ascii.eqb a c then r ^ replace_all c r s'
      else String a (replace_all c r s')
  end.

(** [s.charAt(i)]: one character, or the empty string out of range. *)
Fixpoint charAt (s : string) (i : nat) : string :=
  match s, i with
  | EmptyString, _ => EmptyString
  | String a _, O => String a EmptyString
  | String _ s', S i' => charAt s' i'
  end.

(** [s.split(sep).pop()] for a separator of one character: [segment] is
    the part read since the last separator. *)
Fixpoint split_pop_from (sep : ascii) (segment s : string) : string :=
  match s with
  | EmptyString => segment
  | String a s' =>
      if Ascii.eqb a sep then split_pop_from sep EmptyString s'
      else split_pop_from sep (segment ^ String a EmptyString) s'
  end.

Definition split_pop (sep : ascii) (s : string) : string :=
  split_pop_from sep EmptyString s.

End Js.

(** ** [fileServer.ts] *)

Module FileServer.

Local Notation "s ^ t" := (String.append s t) (at level 30, right associativity).

(** [vscode.Uri], reduced to the two views of it that the extension reads. *)
Record Uri := { fsPath : string; path : string }.

Record ServedFile := {
  filePath : string;
  uri : Uri;
  token : string;
  mimeType : string
}.

Record OnlyOfficeCallback := {
  status : Z;
  url : option string;
  key : option string;
  users : option (list string)
}.

(** What [JSON.parse] hands on under the cast to [OnlyOfficeCallback]:
    [null], which has no properties to read, or a value that is read
    through its properties. *)
Inductive Payload :=
| Null
| Value (data : OnlyOfficeCallback).

(** What the server takes from the platform: two functions of Node's
    [path] module, [JSON.parse] followed by the cast to
    [OnlyOfficeCallback] ([None] when [JSON.parse] throws), and the check
    that [writeHead] makes of a header value ([false] when it throws
    [ERR_INVALID_CHAR], as it does for a control character or a character
    above U+00FF). *)
Class Runtime := {
  extname : string -> string;
  basename : string -> string;
  JSON_parse : string -> option Payload;
  validHeaderValue : string -> bool
}.

(** One entry of [os.networkInterfaces()]. *)
Record NetworkInterfaceInfo := {
  address : string;
  family : string;
  internal : bool
}.

(** The [http.Server] behind [this.server]: created by [start], it is
    binding until the [listen] callback or an ['error'] event arrives. *)
Inductive HttpServer :=
| Binding
| Listening (boundPort : N)
| Errored.

(** What [server.address()] returns. *)
Inductive AddressResult :=
| AddressInfo (port : N)
| AddressString (pipe : string)
| AddressNull.

(** A call of a callback handler either throws in the caller's tick or
    returns, leaving the work [job] to run asynchronously (an [async]
    function always does the latter). *)
Inductive HandlerCall (J : Type) :=
| Threw
| Spawned (job : J).
Arguments Threw {J}.
Arguments Spawned {J} job.

Inductive HeaderValue :=
| HStr (s : string)
| HNum (n : N).

Inductive Body :=
| Text (s : string)
| Stream (content : list byte).

Record Response := {
  statusCode : Z;
  headers : list (string * HeaderValue);
  body : Body
}.

Record Request := {
  method : string;
  req_url : option string;
  chunks : list string
}.

(** The value of a promise returned by [start]. *)
Inductive Settled :=
| Resolve (port : N)
| Reject (reason : string).

Inductive StartResult :=
| Now (value : N)
| Pending.

Record Registration := {
  reg_url : string;
  reg_token : string;
  reg_callbackUrl : string
}.

Section WithJobs.

Context {J : Type} `{Runtime}.

Definition Handler : Type := Payload -> HandlerCall J.

Record FileServer := {
  server : option HttpServer;
  servedFiles : gmap string ServedFile;
  port : N;
  hostIp : string;
  callbackHandlers : gmap string Handler
}.

(** [getHostIp]: the first address that is neither internal nor
    non-IPv4, over the interfaces in key order. *)
Fixpoint first_external (iface : list NetworkInterfaceInfo) : option string :=
  match iface with
  | [] => None
  | info :: rest =>
      if negb (internal info) && String.eqb (family info) "IPv4"
      then Some (address info)
      else first_external rest
  end.

Fixpoint getHostIp (interfaces : list (string * option (list NetworkInterfaceInfo)))
  : string :=
  match interfaces with
  | [] => "127.0.0.1"
  | (_, None) :: rest => getHostIp rest
  | (_, Some iface) :: rest =>
      match first_external iface with
      | Some a => a
      | None => getHostIp rest
      end
  end.

(** [new FileServer()]. *)
Definition new (interfaces : list (string * option (list NetworkInterfaceInfo)))
  : FileServer :=
  {| server := None;
     servedFiles := ∅;
     port := 0;
     hostIp := getHostIp interfaces;
     callbackHandlers := ∅ |}.

(** [start()], up to its first suspension point.  With a server object
    already present the promise is resolved at once with [this.port];
    otherwise a server is created, [listen(0, '0.0.0.0', ...)] is issued
    and the promise stays pending. *)
Definition start (fs : FileServer) : FileServer * StartResult :=
  match server fs with
  | Some _ => (fs, Now (port fs))
  | None =>
      ({| server := Some Binding;
          servedFiles := servedFiles fs;
          port := port fs;
          hostIp := hostIp fs;
          callbackHandlers := callbackHandlers fs |}, Pending)
  end.

(** The [listen] callback of [start].  [None] is the [TypeError] of
    [this.server!.address()] when [this.server] is [null]. *)
Definition on_listening (a : AddressResult) (fs : FileServer)
  : option (FileServer * Settled) :=
  match server fs with
  | None => None
  | Some _ =>
      match a with
      | AddressInfo p =>
          Some ({| server := Some (Listening p);
                   servedFiles := servedFiles fs;
                   port := p;
                   hostIp := hostIp fs;
                   callbackHandlers := callbackHandlers fs |}, Resolve p)
      | _ => Some (fs, Reject "Failed to get server port")
      end
  end.

(** The ['error'] handler of [start]. *)
Definition on_error (err : string) (fs : FileServer) : FileServer * Settled :=
  ({| server := match server fs with Some Binding => Some Errored | s => s end;
      servedFiles := servedFiles fs;
      port := port fs;
      hostIp := hostIp fs;
      callbackHandlers := callbackHandlers fs |}, Reject err).

Definition stop (fs : FileServer) : FileServer :=
  match server fs with
  | Some _ =>
      {| server := None;
         servedFiles := ∅;
         port := 0;
         hostIp := hostIp fs;
         callbackHandlers := ∅ |}
  | None => fs
  end.

Definition mimeTypes (ext : string) : option string :=
  if String.eqb ext ".pptx"
  then Some "application/vnd.openxmlformats-officedocument.presentationml.presentation"
  else if String.eqb ext ".ppt"
  then Some "application/vnd.ms-powerpoint"
  else if String.eqb ext ".docx"
  then Some "application/vnd.openxmlformats-officedocument.wordprocessingml.document"
  else if String.eqb ext ".xlsx"
  then Some "application/vnd.openxmlformats-officedocument.spreadsheetml.sheet"
  else None.

(** [registerFile(uri)]; [random] is the buffer that
    [crypto.randomBytes(16)] returned. *)
Definition registerFile (random : list byte) (u : Uri) (fs : FileServer)
  : FileServer * Registration :=
  let token := Js.toString_hex random in
  let filePath := fsPath u in
  let ext := Js.toLowerCase (extname filePath) in
  ({| server := server fs;
      servedFiles :=
        <[token := {| filePath := filePath;
                      uri := u;
                      token := token;
                      mimeType := Js.or_else (mimeTypes ext) "application/octet-stream" |}]>
          (servedFiles fs);
      port := port fs;
      hostIp := hostIp fs;
      callbackHandlers := callbackHandlers fs |},
   {| reg_url := "http://" ^ hostIp fs ^ ":" ^ Js.show_N (port fs) ^ "/file/" ^ token;
      reg_token := token;
      reg_callbackUrl :=
        "http://" ^ hostIp fs ^ ":" ^ Js.show_N (port fs) ^ "/callback/" ^ token |}).

Definition unregisterFile (token : string) (fs : FileServer) : FileServer :=
  {| server := server fs;
     servedFiles := delete token (servedFiles fs);
     port := port fs;
     hostIp := hostIp fs;
     callbackHandlers := delete token (callbackHandlers fs) |}.

Definition onCallback (token : string) (handler : Handler) (fs : FileServer)
  : FileServer :=
  {| server := server fs;
     servedFiles := servedFiles fs;
     port := port fs;
     hostIp := hostIp fs;
     callbackHandlers := <[token := handler]> (callbackHandlers fs) |}.

Definition getPort (fs : FileServer) : N := port fs.

(** The three [res.setHeader] calls that open [handleRequest]. *)
Definition cors : list (string * HeaderValue) :=
  [ ("Access-Control-Allow-Origin", HStr "*");
    ("Access-Control-Allow-Methods", HStr "GET, POST, OPTIONS");
    ("Access-Control-Allow-Headers", HStr "Content-Type") ].

(** [res.writeHead(code, hs); res.end(b)] after the CORS headers. *)
Definition respond (code : Z) (hs : list (string * HeaderValue)) (b : Body)
  : Response :=
  {| statusCode := code; headers := cors ++ hs; body := b |}.

(** [serveFile(token, res)]; [files] is the disk, by path.  [statSync]
    throws for a path with no file, and the stream of a file that is there
    delivers its content.  Since [handleRequest] has called [setHeader],
    [writeHead] sets its headers one by one, in the order of the object
    literal, and throws at the first value that Node refuses: this can
    only be the [Content-Disposition] (the MIME types are constants that
    Node accepts), with the type and the length already set.  Both
    exceptions end in the [catch], whose [writeHead] overwrites the type
    and leaves the length where it is. *)
Definition serveFile (files : gmap string (list byte)) (token : string)
    (fs : FileServer) : Response :=
  match servedFiles fs !! token with
  | None => respond 404 [("Content-Type", HStr "text/plain")] (Text "File not found")
  | Some fileInfo =>
      match files !! filePath fileInfo with
      | Some content =>
          let disposition :=
            "attachment; filename=" ^ Js.dquote
              ^ basename (filePath fileInfo) ^ Js.dquote in
          if validHeaderValue disposition then
            respond 200
              [ ("Content-Type", HStr (mimeType fileInfo));
                ("Content-Length", HNum (N.of_nat (length content)));
                ("Content-Disposition", HStr disposition) ]
              (Stream content)
          else
            respond 500
              [ ("Content-Type", HStr "text/plain");
                ("Content-Length", HNum (N.of_nat (length content))) ]
              (Text "Error reading file")
      | None =>
          respond 500 [("Content-Type", HStr "text/plain")] (Text "Error reading file")
      end
  end.

(** [handleCallback(token, req, res)], run when the request body has
    ended.  The second component is the work that the handler left to
    run asynchronously. *)
Definition handleCallback (token : string) (req : Request) (fs : FileServer)
  : Response * option J :=
  let body := String.concat "" (chunks req) in
  let failed :=
    respond 500 [("Content-Type", HStr "application/json")]
      (Text (Js.JSON_stringify (Js.JObj [("error", Js.JNum 1)]))) in
  let received :=
    respond 200 [("Content-Type", HStr "application/json")]
      (Text (Js.JSON_stringify (Js.JObj [("error", Js.JNum 0)]))) in
  match JSON_parse body with
  | None => (failed, None)
  | Some data =>
      match callbackHandlers fs !! token with
      | Some handler =>
          match handler data with
          | Threw => (failed, None)
          | Spawned job => (received, Some job)
          end
      | None => (received, None)
      end
  end.

Definition handleRequest (files : gmap string (list byte)) (req : Request)
    (fs : FileServer) : Response * option J :=
  let url := Js.or_else (req_url req) "/" in
  if String.eqb (method req) "OPTIONS" then
    (respond 200 [] (Text ""), None)
  else if Js.startsWith url "/file/" && String.eqb (method req) "GET" then
    (serveFile files (Js.substring_from 6 url) fs, None)
  else if Js.startsWith url "/callback/" && String.eqb (method req) "POST" then
    handleCallback (Js.substring_from 10 url) req fs
  else if String.eqb url "/health" then
    (respond 200 [("Content-Type", HStr "application/json")]
       (Text (Js.JSON_stringify
                (Js.JObj [("status", Js.JStr "ok");
                          ("port", Js.JNum (Z.of_N (port fs)))]))), None)
  else
    (respond 404 [("Content-Type", HStr "text/plain")] (Text "Not Found"), None).

(** A request reaches [handleRequest] only through a listening socket. *)
Definition request (files : gmap string (list byte)) (req : Request)
    (fs : FileServer) : option (Response * option J) :=
  match server fs with
  | Some (Listening _) => Some (handleRequest files req fs)
  | _ => None
  end.

(** The life of a server object: calls of its public operations, and
    the two socket events that [start] subscribes to. *)
Inductive Event :=
| CallStart
| SocketListening (a : AddressResult)
| SocketError (err : string)
| CallStop
| CallRegisterFile (random : list byte) (u : Uri)
| CallUnregisterFile (token : string)
| CallOnCallback (token : string) (handler : Handler).

Definition step (fs : FileServer) (e : Event) : FileServer :=
  match e with
  | CallStart => fst (start fs)
  | SocketListening a =>
      match on_listening a fs with
      | Some (fs', _) => fs'
      | None => fs
      end
  | SocketError err => fst (on_error err fs)
  | CallStop => stop fs
  | CallRegisterFile random u => fst (registerFile random u fs)
  | CallUnregisterFile token => unregisterFile token fs
  | CallOnCallback token handler => onCallback token handler fs
  end.

Definition after (events : list Event) (fs : FileServer) : FileServer :=
  fold_left step events fs.

(** The two states that a caller is meant to see. *)
Definition fully_stopped (fs : FileServer) : Prop :=
  server fs = None /\ port fs = 0%N.

Definition fully_started (fs : FileServer) : Prop :=
  exists p, server fs = Some (Listening p) /\ port fs = p.

(** The recorded port is the bound one for a listening socket, and 0
    without one. *)
Definition consistent (fs : FileServer) : Prop :=
  match server fs with
  | Some (Listening p) => port fs = p
  | _ => port fs = 0%N
  end.

(** Each record sits under its own token, serves the path of its URI, and
    has the MIME type of that path's extension. *)
Definition well_formed (fs : FileServer) : Prop :=
  forall t record,
    servedFiles fs !! t = Some record ->
    token record = t
    /\ filePath record = fsPath (uri record)
    /\ mimeType record
       = match mimeTypes (Js.toLowerCase (extname (filePath record))) with
         | Some m => m
         | None => "application/octet-stream"
         end.

(** Every bound handler is asynchronous: calling it never throws. *)
Definition asynchronous (fs : FileServer) : Prop :=
  forall token handler data,
    callbackHandlers fs !! token = Some handler -> handler data <> Threw.

(** The requests of the two token routes. *)
Definition GET_file (token : string) : Request :=
  {| method := "GET"; req_url := Some ("/file/" ^ token); chunks := [] |}.

Definition POST_callback (token : string) (body : list string) : Request :=
  {| method := "POST"; req_url := Some ("/callback/" ^ token); chunks := body |}.

(** The first value of header [name]. *)
Definition header (name : string) (r : Response) : option HeaderValue :=
  snd <$> List.find (fun h => String.eqb (fst h) name) (headers r).

End WithJobs.

Arguments FileServer J : clear implicits.
Arguments Handler J : clear implicits.

End FileServer.

(** ** [pptxEditorProvider.ts]: the save path *)

Module PptxEditorProvider.

Import FileServer.

Local Notation "s ^ t" := (String.append s t) (at level 30, right associativity).

(** [vscode.CustomDocument]. *)
Record CustomDocument := { doc_uri : Uri }.

(** What [http.get(downloadUrl, ...)] leads to.
    - [RequestError err]: an ['error'] on the request before any response,
      with an [Error] of message [err].
    - [Incoming code received ended]: a response with its status code and
      the bytes of the body that arrive; [ended] is false for a body that
      breaks off without an error on the request.
    - [Refused thrown]: [http.get] itself throws (a [TypeError] for
      a URL it does not accept), which the promise executor turns into a
      rejection; [thrown] is what [String] gives for the exception.
    - [Interrupted received err]: a 200 response of which [received]
      arrives, and then an ['error'] on the request, with an [Error] of
      message [err]. *)
Inductive Download :=
| RequestError (err : string)
| Incoming (code : Z) (received : list byte) (ended : bool)
| Refused (thrown : string)
| Interrupted (received : list byte) (err : string).

(** How the write stream on the target behaves: it takes everything, it
    cannot be opened, or it fails once [written] bytes of the body have
    reached the file. *)
Inductive Disk :=
| Healthy
| OpenFails (err : string)
| WriteFails (written : nat) (err : string).

Record Env := {
  http_get : string -> Download;
  disk : Disk
}.

(** The messages posted to the webview. *)
Inductive WebviewMessage :=
| SaveComplete (success : bool) (error : option string).

(** What the save path does to the outside, each named after the call
    that does it; [HttpGet] is the call of [http.get], whether or not a
    request leaves. *)
Inductive Effect :=
| HttpGet (from : string)
| CreateWriteStream (target : string)
| Write (target : string) (data : list byte)
| Unlink (target : string)
| ShowInformationMessage (text : string)
| PostMessage (m : WebviewMessage).

(** How an awaited promise ends, if it does: [Rejected err] with an
    [Error] of message [err], [Thrown thrown] with another exception, for
    which [String] gives [thrown]. *)
Inductive Outcome :=
| Resolved
| Rejected (err : string)
| Never
| Thrown (thrown : string).

(** The disk, the effects issued so far, oldest first, and the paths whose
    [fs.unlink] has been issued and has not yet been carried out. *)
Record World := {
  files : gmap string (list byte);
  effects : list Effect;
  unlinking : list string
}.

(** State passing over [World]. *)
Definition M (A : Type) : Type := World -> A * World.

Definition ret {A} (a : A) : M A := fun w => (a, w).

Definition bind {A B} (m : M A) (k : A -> M B) : M B :=
  fun w => let '(a, w') := m w in k a w'.

#[export] Instance M_ret : MRet M := @ret.
#[export] Instance M_bind : MBind M := fun A B k m => bind m k.

Definition emit (e : Effect) : M unit :=
  fun w => (tt, {| files := files w;
                   effects := (effects w ++ [e])%list;
                   unlinking := unlinking w |}).

Definition update (f : gmap string (list byte) -> gmap string (list byte)) : M unit :=
  fun w => (tt, {| files := f (files w);
                   effects := effects w;
                   unlinking := unlinking w |}).

(** [fs.createWriteStream(p)] that opens: flag ['w'] creates or truncates. *)
Definition createWriteStream (p : string) : M unit :=
  emit (CreateWriteStream p) ;; update (fun fs => <[p := []]> fs).

(** The bytes piped into an open write stream. *)
Definition write (p : string) (data : list byte) : M unit :=
  emit (Write p data) ;;
  update (fun fs => <[p := (default [] (fs !! p) ++ data)%list]> fs).

(** [p] joins the paths whose unlink is under way. *)
Definition issue_unlink (p : string) : M unit :=
  fun w => (tt, {| files := files w;
                   effects := effects w;
                   unlinking := (unlinking w ++ [p])%list |}).

(** [fs.unlink(p, () => { })]: the call returns at once, with the file
    still in place; the removal is carried out later, see
    [complete_unlinks]. *)
Definition unlink (p : string) : M unit :=
  emit (Unlink p) ;; issue_unlink p.

(** The event loop carries out the unlinks that were issued: one that
    succeeds removes the file, one that fails leaves it, and its error is
    dropped by the empty callback. *)
Definition complete_unlinks (succeeds : string -> bool) (w : World) : World :=
  {| files := fold_left (fun fs p => if succeeds p then delete p fs else fs)
                (unlinking w) (files w);
     effects := effects w;
     unlinking := [] |}.

(** [String(err)]: [Error.prototype.toString]. *)
Definition Error_toString (name message : string) : string :=
  match name, message with
  | EmptyString, _ => message
  | _, EmptyString => name
  | _, _ => name ^ ": " ^ message
  end.

(** [String(err)] for an [Error] with message [err]. *)
Definition String_of_error (err : string) : string := Error_toString "Error" err.

(** [saveDocument(downloadUrl, targetUri)], with the promise it returns
    followed to its end.  A status other than 200 rejects before the
    target is touched.  For 200 the target is opened for writing and the
    body piped into it: ['finish'] shows the message and resolves; an
    ['error'] of the stream issues the unlink and rejects in the same
    tick; an ['error'] on the request rejects and leaves the stream and
    the file as they are.  A disk that fails does so before the request
    does. *)
Definition saveDocument (env : Env) (downloadUrl : string) (targetUri : Uri)
  : M Outcome :=
  emit (HttpGet downloadUrl) ;;
  match http_get env downloadUrl with
  | Refused thrown => ret (Thrown thrown)
  | RequestError err => ret (Rejected err)
  | Incoming code received ended =>
      if negb (code =? 200)%Z then
        ret (Rejected ("Failed to download: " ^ Js.show_Z code))
      else
        match disk env with
        | OpenFails err =>
            emit (CreateWriteStream (fsPath targetUri)) ;;
            unlink (fsPath targetUri) ;;
            ret (Rejected err)
        | WriteFails written err =>
            createWriteStream (fsPath targetUri) ;;
            write (fsPath targetUri) (take written received) ;;
            unlink (fsPath targetUri) ;;
            ret (Rejected err)
        | Healthy =>
            createWriteStream (fsPath targetUri) ;;
            write (fsPath targetUri) received ;;
            if ended then
              emit (ShowInformationMessage "Presentation saved successfully") ;;
              ret Resolved
            else ret Never
        end
  | Interrupted received err =>
      match disk env with
      | OpenFails open_err =>
          emit (CreateWriteStream (fsPath targetUri)) ;;
          unlink (fsPath targetUri) ;;
          ret (Rejected open_err)
      | WriteFails written write_err =>
          createWriteStream (fsPath targetUri) ;;
          write (fsPath targetUri) (take written received) ;;
          unlink (fsPath targetUri) ;;
          ret (Rejected write_err)
      | Healthy =>
          createWriteStream (fsPath targetUri) ;;
          write (fsPath targetUri) received ;;
          ret (Rejected err)
      end
  end.

(** [handleOnlyOfficeCallback] for a payload that has properties; [null]
    is dealt with in [run]. *)
Definition handleOnlyOfficeCallback (env : Env) (data : OnlyOfficeCallback)
    (document : CustomDocument) : M Outcome :=
  let status := status data in
  if (status =? 2)%Z || (status =? 6)%Z then
    let downloadUrl := url data in
    match downloadUrl with
    | Some (String c u) =>
        r ← saveDocument env (String c u) (doc_uri document);
        match r with
        | Resolved => emit (PostMessage (SaveComplete true None)) ;; ret Resolved
        | Rejected err =>
            emit (PostMessage (SaveComplete false (Some (String_of_error err)))) ;;
            ret Resolved
        | Thrown thrown =>
            emit (PostMessage (SaveComplete false (Some thrown))) ;;
            ret Resolved
        | Never => ret Never
        end
    | _ => ret Resolved
    end
  else ret Resolved.

(** A world with the disk [disk0] and nothing issued. *)
Definition fresh (disk0 : gmap string (list byte)) : World :=
  {| files := disk0; effects := []; unlinking := [] |}.

(** A computation run on a disk, with what it returns, the disk it
    leaves once the unlinks it issued have been carried out, all of them
    taken to succeed, and the effects it issued. *)
Definition exec {A} (m : M A) (disk0 : gmap string (list byte))
  : A * gmap string (list byte) * list Effect :=
  let '(a, w) := m (fresh disk0) in
  (a, files (complete_unlinks (fun _ => true) w), effects w).

(** The work that a callback leaves behind: the arguments of the pending
    [handleOnlyOfficeCallback]. *)
Definition Job : Type := Payload * CustomDocument.

(** The handler that [resolveCustomEditor] binds: an [async] arrow. *)
Definition callbackHandler (document : CustomDocument) : Handler Job :=
  fun data => Spawned (data, document).

(** The body of that arrow.  For [null] the first statement of
    [handleOnlyOfficeCallback] that reads a property, [data.status],
    throws a [TypeError], outside every [try]. *)
Definition run (env : Env) (job : Job) : M Outcome :=
  match fst job with
  | Null =>
      ret (Thrown (Error_toString "TypeError"
                     "Cannot read properties of null (reading 'status')"))
  | Value data => handleOnlyOfficeCallback env data (snd job)
  end.

(** [escapeHtml(str)]: five replacements, one after the other. *)
Definition escapeHtml (str : string) : string :=
  Js.replace_all "039" "&#039;"
    (Js.replace_all "034" "&quot;"
       (Js.replace_all ">" "&gt;"
          (Js.replace_all "<" "&lt;"
             (Js.replace_all "&" "&amp;" str)))).

(** The title that [getHtmlForWebview] shows:
    [documentUri.path.split('/').pop() || 'Presentation']. *)
Definition fileName (documentUri : Uri) : string :=
  Js.or_else (Some (Js.split_pop "/" (path documentUri))) "Presentation".

(** [getNonce()]; [draw i] is the value of
    [Math.floor(Math.random() * possible.length)] in round [i]. *)
Definition possible : string :=
  "ABCDEFGHIJKLMNOPQRSTUVWXYZabcdefghijklmnopqrstuvwxyz0123456789".

Fixpoint getNonce_rounds (draw : nat -> nat) (i rounds : nat) (text : string) : string :=
  match rounds with
  | O => text
  | S rounds' =>
      getNonce_rounds draw (S i) rounds' (text ^ Js.charAt possible (draw i))
  end.

Definition getNonce (draw : nat -> nat) : string :=
  getNonce_rounds draw 0 32 EmptyString.

Section WithRuntime.

Context `{Runtime}.

(** Whether [generateDocumentKey(uri)] returns: its [fs.statSync] throws
    for a path with no file.  The key itself, an MD5 over the path and the
    modification time, is not part of the model. *)
Definition generateDocumentKey_returns (files : gmap string (list byte)) (u : Uri)
  : bool :=
  match files !! fsPath u with
  | Some _ => true
  | None => false
  end.

(** What [resolveCustomEditor] leaves for the panel: the URLs it built,
    and whether it got as far as hooking [onDidDispose]. *)
Record Session := {
  registration : Registration;
  hooked : bool
}.

(** [resolveCustomEditor] from the point where [await start()] has
    returned: register the file, bind the handler, compute the document
    key, set the HTML and hook [onDidDispose].  When the document key
    cannot be computed the function throws with the file registered and
    the handler bound, and the hook is never installed. *)
Definition resolveCustomEditor (random : list byte) (document : CustomDocument)
    (files : gmap string (list byte)) (fs : FileServer Job)
  : FileServer Job * Session :=
  let '(fs', r) := registerFile random (doc_uri document) fs in
  (onCallback (reg_token r) (callbackHandler document) fs',
   {| registration := r;
      hooked := generateDocumentKey_returns files (doc_uri document) |}).

(** The panel is disposed: the listener runs if it was hooked. *)
Definition onDidDispose (s : Session) (fs : FileServer Job) : FileServer Job :=
  if hooked s then unregisterFile (reg_token (registration s)) fs else fs.

(** A request served, followed by the run of the work it spawned. *)
Definition serve (env : Env) (req : Request) (fs : FileServer Job)
  : M (Response * option Outcome) :=
  fun w =>
    let '(res, job) := handleRequest (files w) req fs in
    match job with
    | Some j => let '(o, w') := run env j w in ((res, Some o), w')
    | None => ((res, None), w)
    end.

(** What happens to the shared server while editors come and go: the
    steps of [resolveCustomEditor] on both sides of its [await], the
    socket events, the [onDidDispose] of a panel, and the [stop()] of
    [disposeFileServer]. *)
Inductive SessionEvent :=
| AwaitStart
| Bound (a : AddressResult)
| Failed (err : string)
| Opened (random : list byte) (document : CustomDocument)
    (files : gmap string (list byte))
| Closed (token : string)
| Disposed.

Definition session_step (fs : FileServer Job) (e : SessionEvent) : FileServer Job :=
  match e with
  | AwaitStart => fst (start fs)
  | Bound a => step fs (SocketListening a)
  | Failed err => fst (on_error err fs)
  | Opened random document files =>
      fst (resolveCustomEditor random document files fs)
  | Closed token => unregisterFile token fs
  | Disposed => stop fs
  end.

Definition sessions (events : list SessionEvent) (fs : FileServer Job)
  : FileServer Job :=
  fold_left session_step events fs.

(** For each token, either a record together with the handler of the
    document it was registered for, or neither. *)
Definition paired (fs : FileServer Job) : Prop :=
  forall token,
    (servedFiles fs !! token = None /\ callbackHandlers fs !! token = None)
    \/ (exists document record,
          servedFiles fs !! token = Some record
          /\ uri record = doc_uri document
          /\ callbackHandlers fs !! token = Some (callbackHandler document)).

End WithRuntime.

End PptxEditorProvider.

(** ** A runtime to run the model on

    POSIX paths without trailing separators, and a reader of callback
    payloads that carry a status alone, or a status followed by a url. *)

Module Reference.

Import FileServer.

Local Notation "s ^ t" := (String.append s t) (at level 30, right associativity).

(** The part of [s] after its last ['/']. *)
Fixpoint after_last_slash (s : string) : string :=
  match s with
  | EmptyString => EmptyString
  | String c s' =>
      if existsb (Ascii.eqb "/") (list_ascii_of_string s')
      then after_last_slash s'
      else if Ascii.eqb c "/" then s' else s
  end.

(** The part of [s] from its last ['.'] on, if that is not its start. *)
Fixpoint from_last_dot (s : string) : string :=
  match s with
  | EmptyString => EmptyString
  | String c s' =>
      if existsb (Ascii.eqb ".") (list_ascii_of_string s')
      then from_last_dot s'
      else if Ascii.eqb c "." then s else EmptyString
  end.

Definition posix_extname (p : string) : string :=
  match after_last_slash p with
  | EmptyString => EmptyString
  | String _ rest => from_last_dot rest
  end.

Definition strip (p s : string) : option string :=
  if Js.startsWith s p then Some (Js.substring_from (String.length p) s) else None.

Definition digit (c : ascii) : option Z :=
  let n := nat_of_ascii c in
  if (48 <=? n)%nat && (n <=? 57)%nat then Some (Z.of_nat (n - 48)) else None.

Fixpoint digits (acc : Z) (s : string) : Z * string :=
  match s with
  | String c s' =>
      match digit c with
      | Some d => digits (10 * acc + d) s'
      | None => (acc, s)
      end
  | EmptyString => (acc, s)
  end.

Fixpoint until_quote (s : string) : option (string * string) :=
  match s with
  | EmptyString => None
  | String c s' =>
      if Ascii.eqb c "034" then Some (EmptyString, s')
      else match until_quote s' with
           | Some (u, rest) => Some (String c u, rest)
           | None => None
           end
  end.

Definition payload (n : Z) (u : option string) : OnlyOfficeCallback :=
  {| status := n; url := u; key := None; users := None |}.

Definition parse_payload (s : string) : option OnlyOfficeCallback :=
  match strip ("{" ^ Js.quote "status" ^ ":") s with
  | Some (String c rest) =>
      match digit c with
      | None => None
      | Some _ =>
          let '(n, rest') := digits 0 (String c rest) in
          if String.eqb rest' "}" then Some (payload n None)
          else
            match strip ("," ^ Js.quote "url" ^ ":" ^ Js.dquote) rest' with
            | Some quoted =>
                match until_quote quoted with
                | Some (u, tail) =>
                    if String.eqb tail "}" then Some (payload n (Some u)) else None
                | None => None
                end
            | None => None
            end
      end
  | _ => None
  end.

(** A body that is [null], or a payload as above. *)
Definition parse_body (s : string) : option Payload :=
  if String.eqb s "null" then Some Null
  else match parse_payload s with
       | Some data => Some (Value data)
       | None => None
       end.

(** Node's test of a header value, on characters up to U+00FF: a tab, or
    anything from U+0020 on but U+007F. *)
Definition valid_header_value (s : string) : bool :=
  forallb (fun c => let n := nat_of_ascii c in
                    (n =? 9)%nat || ((32 <=? n)%nat && negb (n =? 127)%nat))
    (list_ascii_of_string s).

#[export] Instance runtime : Runtime :=
  {| extname := posix_extname;
     basename := after_last_slash;
     JSON_parse := parse_body;
     validHeaderValue := valid_header_value |}.

(** Sample data. *)
Definition deck : Uri :=
  {| fsPath := "/home/u/Talk.PPTX"; path := "/home/u/Talk.PPTX" |}.

Definition notes : Uri :=
  {| fsPath := "/home/u/notes.txt"; path := "/home/u/notes.txt" |}.

Definition seed : list byte := [x00; x0f; xa5; xff].

Definition old_bytes : list byte := [x50; x4b; x01].

Definition new_bytes : list byte := [x50; x4b; x03; x04; x05].

Definition disk0 : gmap string (list byte) := {[ "/home/u/Talk.PPTX" := old_bytes ]}.

Definition eth0 : list (string * option (list NetworkInterfaceInfo)) :=
  [ ("lo", Some [ {| address := "127.0.0.1"; family := "IPv4"; internal := true |} ]);
    ("eth0", Some [ {| address := "fe80::1"; family := "IPv6"; internal := false |};
                    {| address := "192.168.1.7"; family := "IPv4"; internal := false |} ]) ].

Definition status_body (n : string) : string :=
  "{" ^ Js.quote "status" ^ ":" ^ n ^ "}".

Definition save_body (n u : string) : string :=
  "{" ^ Js.quote "status" ^ ":" ^ n ^ "," ^ Js.quote "url" ^ ":" ^ Js.quote u ^ "}".

(** A document service that answers one download URL. *)
Import PptxEditorProvider.

Definition download_url : string := "http://localhost:8080/cache/files/out.pptx".

Definition service (answer : Download) (u : string) : Download :=
  if String.eqb u download_url then answer
  else RequestError "connect ECONNREFUSED".

Definition env_ok : Env :=
  {| http_get := service (Incoming 200 new_bytes true); disk := Healthy |}.


Definition env_not_found : Env :=
  {| http_get := service (Incoming 404 [] true); disk := Healthy |}.

Definition talk : CustomDocument := {| doc_uri := deck |}.

(** A server that was started and bound to port 49152, and the same
    with one editor session open on [talk]. *)
Definition bound : FileServer Job :=
  after [CallStart; SocketListening (AddressInfo 49152)] (new eth0).

Definition session : FileServer Job :=
  fst (resolveCustomEditor seed talk disk0 bound).

Definition world0 : World := fresh disk0.

(** More sample data. *)
Definition sheet : Uri :=
  {| fsPath := "/home/u/budget.xlsx"; path := "/home/u/budget.xlsx" |}.

Definition budget : CustomDocument := {| doc_uri := sheet |}.

Definition seed2 : list byte := [x01; x02; x03; x04].

Definition env_refused : Env :=
  {| http_get := fun _ => RequestError "connect ECONNREFUSED 127.0.0.1:8080";
     disk := Healthy |}.

Definition env_read_only : Env :=
  {| http_get := service (Incoming 200 new_bytes true);
     disk := OpenFails "EACCES: permission denied, open" |}.

Definition env_cut_off : Env :=
  {| http_get := service (Incoming 200 (take 2 new_bytes) false); disk := Healthy |}.

Definition env_bad_url : Env :=
  {| http_get := fun _ => Refused (Error_toString "TypeError" "Invalid URL"); disk := Healthy |}.

Definition env_reset : Env :=
  {| http_get := service (Interrupted (take 2 new_bytes) "read ECONNRESET");
     disk := Healthy |}.

(** A file whose name holds a line feed, and a document that is not on
    the disk. *)
Definition odd : Uri :=
  {| fsPath := "/home/u/a" ^ String "010" "b.pptx";
     path := "/home/u/a" ^ String "010" "b.pptx" |}.

Definition odd_disk : gmap string (list byte) :=
  {[ "/home/u/a" ^ String "010" "b.pptx" := old_bytes ]}.

Definition missing : CustomDocument :=
  {| doc_uri := {| fsPath := "/home/u/gone.pptx"; path := "/home/u/gone.pptx" |} |}.

(** A handler that throws in the caller's tick. *)
Definition throwing : Handler Job := fun _ => Threw.

Definition no_network : list (string * option (list NetworkInterfaceInfo)) :=
  [ ("lo", Some [ {| address := "127.0.0.1"; family := "IPv4"; internal := true |};
                  {| address := "::1"; family := "IPv6"; internal := true |} ]);
    ("tun0", None) ].

End Reference.

(** * Properties of the file server *)

Module FileServerFacts.

Import FileServer.

Local Notation "s ^ t" := (String.append s t) (at level 30, right associativity).

Section Facts.

Context {J : Type} `{Runtime}.

Implicit Types (fs : FileServer J) (t token : string).

(** *** Records are determined by their fields *)

Lemma FileServer_eq fs fs' :
  server fs = server fs' ->
  servedFiles fs = servedFiles fs' ->
  port fs = port fs' ->
  hostIp fs = hostIp fs' ->
  callbackHandlers fs = callbackHandlers fs' ->
  fs = fs'.
Proof. destruct fs, fs'; simpl; intros; subst; reflexivity. Qed.

(** *** Routing of the two token routes *)

Lemma route_GET_file files t fs :
  handleRequest files (GET_file t) fs = (serveFile files t fs, None).
Proof. lazy -[serveFile]. reflexivity. Qed.

Lemma route_POST_callback files t chunks fs :
  handleRequest files (POST_callback t chunks) fs
  = handleCallback t (POST_callback t chunks) fs.
Proof. lazy -[handleCallback]. reflexivity. Qed.

(** *** [start] *)

Lemma start_existing fs s :
  server fs = Some s -> start fs = (fs, Now (port fs)).
Proof. intros Hs. unfold start. rewrite Hs. reflexivity. Qed.

Lemma start_again fs s n :
  server fs = Some s -> after (repeat CallStart n) fs = fs.
Proof.
  intros Hs. induction n as [ | n IH ]; simpl.
  - reflexivity.
  - rewrite (start_existing fs s Hs). simpl. exact IH.
Qed.

Lemma stop_server fs : server (stop fs) = None.
Proof. unfold stop. destruct (server fs) eqn:Hs; simpl; [reflexivity | exact Hs]. Qed.

Lemma start_fresh fs :
  server fs = None ->
  snd (start fs) = Pending /\ server (fst (start fs)) = Some Binding
  /\ port (fst (start fs)) = port fs.
Proof. intros Hs. unfold start. rewrite Hs. simpl. auto. Qed.

Lemma start_keeps_registry fs :
  servedFiles (fst (start fs)) = servedFiles fs
  /\ callbackHandlers (fst (start fs)) = callbackHandlers fs
  /\ hostIp (fst (start fs)) = hostIp fs.
Proof. unfold start. destruct (server fs); simpl; auto. Qed.

Lemma on_listening_bound fs s p :
  server fs = Some s ->
  exists fs', on_listening (AddressInfo p) fs = Some (fs', Resolve p)
    /\ server fs' = Some (Listening p) /\ port fs' = p
    /\ servedFiles fs' = servedFiles fs
    /\ callbackHandlers fs' = callbackHandlers fs.
Proof.
  intros Hs. unfold on_listening. rewrite Hs.
  eexists. split; [reflexivity | simpl; auto].
Qed.

(** *** The recorded port follows the socket *)

Lemma new_consistent interfaces : consistent (new (J := J) interfaces).
Proof. reflexivity. Qed.

Lemma step_consistent fs e : consistent fs -> consistent (step fs e).
Proof.
  unfold consistent. intros Hc. destruct e as [ | a | err | | random u | t | t h ]; simpl.
  - unfold start. destruct (server fs) as [s|] eqn:Hs; simpl.
    + rewrite Hs. exact Hc.
    + exact Hc.
  - unfold on_listening. destruct (server fs) as [s|] eqn:Hs.
    + destruct a; simpl; try reflexivity; rewrite Hs; exact Hc.
    + rewrite Hs. exact Hc.
  - destruct (server fs) as [[ | p | ]|]; simpl; exact Hc.
  - unfold stop. destruct (server fs) as [s|] eqn:Hs; simpl.
    + reflexivity.
    + rewrite Hs. exact Hc.
  - exact Hc.
  - exact Hc.
  - exact Hc.
Qed.

Lemma after_consistent events : forall fs, consistent fs -> consistent (after events fs).
Proof.
  induction events as [ | e events IH ]; intros fs Hc; simpl.
  - exact Hc.
  - apply IH, step_consistent, Hc.
Qed.

Lemma port_0_unless_listening interfaces events :
  let fs := after events (new (J := J) interfaces) in
  (forall p, server fs <> Some (Listening p)) -> port fs = 0%N.
Proof.
  intros fs Hnl.
  pose proof (after_consistent events _ (new_consistent interfaces)) as Hc.
  fold fs in Hc. unfold consistent in Hc.
  destruct (server fs) as [[ | p | ]|] eqn:Hs; try exact Hc.
  exfalso. exact (Hnl p eq_refl).
Qed.

(** *** The MIME type of a registration *)

Lemma mimeType_of_extension ext :
  Js.or_else (mimeTypes ext) "application/octet-stream"
  = match mimeTypes ext with
    | Some m => m
    | None => "application/octet-stream"
    end.
Proof. unfold mimeTypes. repeat case_match; simplify_eq; reflexivity. Qed.

Lemma registerFile_record random u fs :
  servedFiles (fst (registerFile random u fs)) !! Js.toString_hex random
  = Some {| filePath := fsPath u;
            uri := u;
            token := Js.toString_hex random;
            mimeType :=
              match mimeTypes (Js.toLowerCase (extname (fsPath u))) with
              | Some m => m
              | None => "application/octet-stream"
              end |}.
Proof. simpl. rewrite lookup_insert_eq, mimeType_of_extension. reflexivity. Qed.

(** *** The claims on the server *)

(** C5. [start()] is idempotent.  When a first call has bound the
    socket and resolved with port [p], a further call resolves at once
    with the same [p] and leaves the server object as it is: nothing is
    created, nothing is bound anew, and no rejection can come out of it.
    The same holds at any started state. *)
Theorem start_idempotent fs fs1 fs2 p :
  start fs = (fs1, Pending) ->
  on_listening (AddressInfo p) fs1 = Some (fs2, Resolve p) ->
  start fs2 = (fs2, Now p)
  /\ server (fst (start fs2)) = Some (Listening p)
  /\ (forall n, after (repeat CallStart n) fs2 = fs2)
  /\ (forall fs', fully_started fs' -> start fs' = (fs', Now (port fs'))).
Proof.
  intros Hstart Hlisten.
  assert (server fs1 = Some Binding) as Hs1.
  { unfold start in Hstart. destruct (server fs); inversion Hstart. reflexivity. }
  unfold on_listening in Hlisten. rewrite Hs1 in Hlisten.
  inversion Hlisten; subst fs2; clear Hlisten.
  split; [reflexivity | split; [reflexivity | split]].
  - intros n. apply (start_again _ (Listening p)). reflexivity.
  - intros fs' [q [Hq _]]. exact (start_existing fs' _ Hq).
Qed.

(** C6, as the code has it.  [stop()] without a server object changes
    nothing.  [stop()] with one drops it, so that no request is served any
    more, empties both maps and sets the port to 0; after such a stop, a
    [start()] that binds port [p] serves 404 on [/file/t] for every token
    [t], whatever was registered before. *)
Theorem stop_clears fs :
  (server fs = None -> stop fs = fs)
  /\ (forall s, server fs = Some s ->
        server (stop fs) = None
        /\ servedFiles (stop fs) = ∅
        /\ callbackHandlers (stop fs) = ∅
        /\ port (stop fs) = 0%N
        /\ (forall files req, request files req (stop fs) = None)
        /\ forall p, exists fs1 fs2,
             start (stop fs) = (fs1, Pending)
             /\ on_listening (AddressInfo p) fs1 = Some (fs2, Resolve p)
             /\ forall files t,
                  request files (GET_file t) fs2
                  = Some (respond 404 [("Content-Type", HStr "text/plain")]
                            (Text "File not found"), None)).
Proof.
  split.
  - intros Hs. unfold stop. rewrite Hs. reflexivity.
  - intros s Hs. unfold stop. rewrite Hs. simpl.
    repeat split.
    intros p. do 2 eexists. repeat split.
Qed.

(** C7, where the code departs from it.  [GET /file/{token}] for a token
    whose record points at a file with content [content] gets 200 with
    the record's MIME type, the length of [content], the attachment
    disposition naming the basename, and [content] as body, but only
    when Node accepts that disposition as a header value: for a basename
    that it refuses ([writeHead] throws), the answer is 500 in plain
    text, with the length of the file left behind as [Content-Length],
    although the file is registered and there.  The record that
    [registerFile] stores carries the MIME-map entry of the lower-cased
    extension, or [application/octet-stream] outside the map; a token with
    no record gets 404 in plain text. *)
Theorem serveFile_registered files fs t :
  (forall info content,
      servedFiles fs !! t = Some info ->
      files !! filePath info = Some content ->
      handleRequest files (GET_file t) fs
      = (if validHeaderValue ("attachment; filename=" ^ Js.dquote
                                ^ basename (filePath info) ^ Js.dquote)
         then
           respond 200
             [ ("Content-Type", HStr (mimeType info));
               ("Content-Length", HNum (N.of_nat (length content)));
               ("Content-Disposition",
                 HStr ("attachment; filename=" ^ Js.dquote
                         ^ basename (filePath info) ^ Js.dquote)) ]
             (Stream content)
         else
           respond 500
             [ ("Content-Type", HStr "text/plain");
               ("Content-Length", HNum (N.of_nat (length content))) ]
             (Text "Error reading file"), None))
  /\ (forall random u content,
        files !! fsPath u = Some content ->
        validHeaderValue ("attachment; filename=" ^ Js.dquote
                            ^ basename (fsPath u) ^ Js.dquote) = false ->
        handleRequest files (GET_file (reg_token (snd (registerFile random u fs))))
          (fst (registerFile random u fs))
        = (respond 500
             [ ("Content-Type", HStr "text/plain");
               ("Content-Length", HNum (N.of_nat (length content))) ]
             (Text "Error reading file"), None))
  /\ (forall random u content,
        files !! fsPath u = Some content ->
        validHeaderValue ("attachment; filename=" ^ Js.dquote
                            ^ basename (fsPath u) ^ Js.dquote) = true ->
        handleRequest files (GET_file (reg_token (snd (registerFile random u fs))))
          (fst (registerFile random u fs))
        = (respond 200
             [ ("Content-Type",
                 HStr match mimeTypes (Js.toLowerCase (extname (fsPath u))) with
                      | Some m => m
                      | None => "application/octet-stream"
                      end);
               ("Content-Length", HNum (N.of_nat (length content)));
               ("Content-Disposition",
                 HStr ("attachment; filename=" ^ Js.dquote
                         ^ basename (fsPath u) ^ Js.dquote)) ]
             (Stream content), None))
  /\ (servedFiles fs !! t = None ->
      handleRequest files (GET_file t) fs
      = (respond 404 [("Content-Type", HStr "text/plain")] (Text "File not found"),
         None)).
Proof.
  split; [| split; [| split]].
  - intros info content Hinfo Hfile.
    rewrite route_GET_file. unfold serveFile. rewrite Hinfo, Hfile.
    destruct (validHeaderValue _); reflexivity.
  - intros random u content Hfile Hrefused.
    rewrite route_GET_file. unfold serveFile.
    change (reg_token (snd (registerFile random u fs))) with (Js.toString_hex random).
    rewrite registerFile_record. simpl. rewrite Hfile, Hrefused. reflexivity.
  - intros random u content Hfile Haccepted.
    rewrite route_GET_file. unfold serveFile.
    change (reg_token (snd (registerFile random u fs))) with (Js.toString_hex random).
    rewrite registerFile_record. simpl. rewrite Hfile, Haccepted. reflexivity.
  - intros Hnone.
    rewrite route_GET_file. unfold serveFile. rewrite Hnone. reflexivity.
Qed.

(** C9. [unregisterFile(t)] removes the record and the binding of [t],
    leaves those of every other token and the rest of the server as they
    were, never fails, and changes nothing at all for a token that has
    neither record nor binding; doing it twice is doing it once. *)
Theorem unregisterFile_frame fs t :
  servedFiles (unregisterFile t fs) !! t = None
  /\ callbackHandlers (unregisterFile t fs) !! t = None
  /\ (forall t', t' <> t ->
        servedFiles (unregisterFile t fs) !! t' = servedFiles fs !! t'
        /\ callbackHandlers (unregisterFile t fs) !! t' = callbackHandlers fs !! t')
  /\ server (unregisterFile t fs) = server fs
  /\ port (unregisterFile t fs) = port fs
  /\ hostIp (unregisterFile t fs) = hostIp fs
  /\ (servedFiles fs !! t = None -> callbackHandlers fs !! t = None ->
      unregisterFile t fs = fs)
  /\ unregisterFile t (unregisterFile t fs) = unregisterFile t fs.
Proof.
  repeat split; simpl.
  - apply lookup_delete_eq.
  - apply lookup_delete_eq.
  - apply lookup_delete_ne. congruence.
  - apply lookup_delete_ne. congruence.
  - intros Hf Hh. apply FileServer_eq; simpl; try reflexivity.
    + apply delete_id, Hf.
    + apply delete_id, Hh.
  - apply FileServer_eq; simpl; try reflexivity.
    + apply delete_id, lookup_delete_eq.
    + apply delete_id, lookup_delete_eq.
Qed.

(** C10. A [registerFile] on a server whose socket is not listening
    (never started, still binding, failed, or stopped) returns URLs with
    port 0, and stores the record under the returned token all the
    same. *)
Theorem registerFile_before_listening interfaces events random u :
  let fs := after events (new (J := J) interfaces) in
  (forall p, server fs <> Some (Listening p)) ->
  let r := snd (registerFile random u fs) in
  reg_url r = "http://" ^ hostIp fs ^ ":0/file/" ^ reg_token r
  /\ reg_callbackUrl r = "http://" ^ hostIp fs ^ ":0/callback/" ^ reg_token r
  /\ exists record,
      servedFiles (fst (registerFile random u fs)) !! reg_token r = Some record
      /\ filePath record = fsPath u
      /\ token record = reg_token r.
Proof.
  intros fs Hnl r.
  pose proof (port_0_unless_listening interfaces events Hnl) as Hport.
  fold fs in Hport. subst r. simpl. rewrite Hport.
  repeat split.
  eexists. split; [apply lookup_insert_eq | split; reflexivity].
Qed.

(** C4, where the code departs from it.  Right after [start()] is called
    on a new server, and for good once the socket reports an error,
    there is a server object while the recorded port is 0: the state is
    neither stopped nor started, and [getPort], a second [start()] and
    [registerFile] all show it. *)
Theorem start_exposes_unbound_server interfaces err random u :
  let fs := fst (start (new (J := J) interfaces)) in
  let failed := fst (on_error err fs) in
  server fs = Some Binding
  /\ getPort fs = 0%N
  /\ ~ fully_stopped fs
  /\ ~ fully_started fs
  /\ start fs = (fs, Now 0%N)
  /\ reg_url (snd (registerFile random u fs))
     = "http://" ^ getHostIp interfaces ^ ":0/file/" ^ Js.toString_hex random
  /\ server failed = Some Errored
  /\ start failed = (failed, Now 0%N).
Proof.
  simpl. repeat split.
  - intros [Hs _]. discriminate Hs.
  - intros [p [Hs _]]. discriminate Hs.
Qed.

End Facts.

End FileServerFacts.

(** * Properties of the save path *)

Module ProviderFacts.

Import FileServer PptxEditorProvider.

Local Notation "s ^ t" := (String.append s t) (at level 30, right associativity).

(** Unfolding of the state-passing combinators. *)
Ltac run_M :=
  unfold exec, fresh, complete_unlinks, saveDocument, createWriteStream, write,
    unlink, issue_unlink, emit, update, mbind, mret, M_bind, M_ret, bind, ret;
  simpl.

Lemma write_after_create (p : string) (data : list byte) (m : gmap string (list byte)) :
  <[p := (default [] (<[p := []]> m !! p) ++ data)%list]> (<[p := []]> m)
  = <[p := data]> m.
Proof. rewrite lookup_insert_eq. simpl. apply insert_insert_eq. Qed.

Lemma unlink_after_write (p : string) (data : list byte) (m : gmap string (list byte)) :
  delete p (<[p := (default [] (<[p := []]> m !! p) ++ data)%list]> (<[p := []]> m))
  = delete p m.
Proof. rewrite write_after_create. apply delete_insert_eq. Qed.

(** *** [saveDocument], case by case *)

Lemma saveDocument_request_error env downloadUrl target disk0 err :
  http_get env downloadUrl = RequestError err ->
  exec (saveDocument env downloadUrl target) disk0
  = (Rejected err, disk0, [HttpGet downloadUrl]).
Proof. intros Hget. run_M. rewrite Hget. reflexivity. Qed.

Lemma saveDocument_not_200 env downloadUrl target disk0 code received ended :
  http_get env downloadUrl = Incoming code received ended ->
  code <> 200%Z ->
  exec (saveDocument env downloadUrl target) disk0
  = (Rejected ("Failed to download: " ^ Js.show_Z code), disk0, [HttpGet downloadUrl]).
Proof.
  intros Hget Hcode. run_M. rewrite Hget.
  destruct (Z.eqb_spec code 200) as [->|_]; [congruence | reflexivity].
Qed.

Lemma saveDocument_saved env downloadUrl target disk0 received :
  http_get env downloadUrl = Incoming 200 received true ->
  disk env = Healthy ->
  exec (saveDocument env downloadUrl target) disk0
  = (Resolved, <[fsPath target := received]> disk0,
     [ HttpGet downloadUrl; CreateWriteStream (fsPath target);
       Write (fsPath target) received;
       ShowInformationMessage "Presentation saved successfully" ]).
Proof.
  intros Hget Hdisk. run_M. rewrite Hget, Hdisk. simpl.
  rewrite write_after_create. reflexivity.
Qed.

Lemma saveDocument_broken_off env downloadUrl target disk0 received :
  http_get env downloadUrl = Incoming 200 received false ->
  disk env = Healthy ->
  exec (saveDocument env downloadUrl target) disk0
  = (Never, <[fsPath target := received]> disk0,
     [ HttpGet downloadUrl; CreateWriteStream (fsPath target);
       Write (fsPath target) received ]).
Proof.
  intros Hget Hdisk. run_M. rewrite Hget, Hdisk. simpl.
  rewrite write_after_create. reflexivity.
Qed.

Lemma saveDocument_open_fails env downloadUrl target disk0 received ended err :
  http_get env downloadUrl = Incoming 200 received ended ->
  disk env = OpenFails err ->
  exec (saveDocument env downloadUrl target) disk0
  = (Rejected err, delete (fsPath target) disk0,
     [ HttpGet downloadUrl; CreateWriteStream (fsPath target);
       Unlink (fsPath target) ]).
Proof. intros Hget Hdisk. run_M. rewrite Hget, Hdisk. reflexivity. Qed.

Lemma saveDocument_write_fails env downloadUrl target disk0 received ended written err :
  http_get env downloadUrl = Incoming 200 received ended ->
  disk env = WriteFails written err ->
  exec (saveDocument env downloadUrl target) disk0
  = (Rejected err, delete (fsPath target) disk0,
     [ HttpGet downloadUrl; CreateWriteStream (fsPath target);
       Write (fsPath target) (take written received);
       Unlink (fsPath target) ]).
Proof.
  intros Hget Hdisk. run_M. rewrite Hget, Hdisk. simpl.
  rewrite unlink_after_write. reflexivity.
Qed.

(** The first effect of [saveDocument] is the request, and earlier
    effects stay in place. *)
Lemma saveDocument_effects env downloadUrl target w :
  exists es, effects (snd (saveDocument env downloadUrl target w))
             = (effects w ++ HttpGet downloadUrl :: es)%list.
Proof.
  run_M.
  destruct (http_get env downloadUrl)
    as [err | code received ended | thrown | received err]; simpl.
  - eexists. reflexivity.
  - destruct (negb (code =? 200)%Z); simpl; [eexists; reflexivity |].
    destruct (disk env) as [ | err | written err ]; simpl.
    + destruct ended; simpl; rewrite <- ?app_assoc; simpl; eexists; reflexivity.
    + rewrite <- ?app_assoc; simpl; eexists; reflexivity.
    + rewrite <- ?app_assoc; simpl; eexists; reflexivity.
  - eexists. reflexivity.
  - destruct (disk env) as [ | open_err | written write_err ]; simpl;
      rewrite <- ?app_assoc; simpl; eexists; reflexivity.
Qed.

(** *** [handleOnlyOfficeCallback] in terms of [saveDocument] *)

Lemma handle_ready env data doc disk0 u :
  (status data = 2 \/ status data = 6)%Z ->
  url data = Some u -> u <> "" ->
  exec (handleOnlyOfficeCallback env data doc) disk0
  = let '(o, disk1, es) := exec (saveDocument env u (doc_uri doc)) disk0 in
    match o with
    | Resolved => (Resolved, disk1, (es ++ [PostMessage (SaveComplete true None)])%list)
    | Rejected err =>
        (Resolved, disk1,
         (es ++ [PostMessage (SaveComplete false (Some (String_of_error err)))])%list)
    | Never => (Never, disk1, es)
    | Thrown thrown =>
        (Resolved, disk1, (es ++ [PostMessage (SaveComplete false (Some thrown))])%list)
    end.
Proof.
  intros Hst Hurl Hne. unfold handleOnlyOfficeCallback.
  assert (((status data =? 2)%Z || (status data =? 6)%Z) = true) as ->.
  { destruct Hst as [-> | ->]; reflexivity. }
  rewrite Hurl. destruct u as [ | c u ]; [congruence |].
  unfold exec, mbind, M_bind, bind.
  destruct (saveDocument env (String c u) (doc_uri doc) _) as [o w] eqn:Hsave.
  destruct o; reflexivity.
Qed.

Lemma handle_not_ready env data doc disk0 :
  ~ ((status data = 2 \/ status data = 6)%Z
     /\ exists u, url data = Some u /\ u <> "") ->
  exec (handleOnlyOfficeCallback env data doc) disk0 = (Resolved, disk0, []).
Proof.
  intros Hnot. unfold handleOnlyOfficeCallback.
  destruct (Z.eqb_spec (status data) 2) as [H2|H2];
    destruct (Z.eqb_spec (status data) 6) as [H6|H6]; simpl;
    try reflexivity;
    (destruct (url data) as [[ | c u ]|] eqn:Hurl; try reflexivity;
     exfalso; apply Hnot; split; [ auto | exists (String c u); split; congruence ]).
Qed.

Lemma saveDocument_starts_with_request env downloadUrl target disk0 :
  exists es, snd (exec (saveDocument env downloadUrl target) disk0)
             = HttpGet downloadUrl :: es.
Proof.
  destruct (saveDocument_effects env downloadUrl target (fresh disk0)) as [es Hes].
  exists es. unfold exec.
  destruct (saveDocument env downloadUrl target _) as [o w]. exact Hes.
Qed.

Lemma ready_or_not data :
  let ready := (status data = 2 \/ status data = 6)%Z
               /\ exists u, url data = Some u /\ u <> "" in
  ready \/ ~ ready.
Proof.
  simpl.
  destruct (url data) as [[ | c u ]|] eqn:Hurl.
  - right. intros [_ [u [Hu Hne]]]. congruence.
  - destruct (Z.eq_dec (status data) 2%Z) as [H2|H2].
    + left. split; [auto | exists (String c u); split; congruence].
    + destruct (Z.eq_dec (status data) 6%Z) as [H6|H6].
      * left. split; [auto | exists (String c u); split; congruence].
      * right. intros [[?|?] _]; contradiction.
  - right. intros [_ [u [Hu _]]]. congruence.
Qed.

(** *** The claims on the save path *)

(** C1. The reconciler runs the save procedure, whose first step is the
    request to the payload's download URL, exactly when the status is 2
    or 6 and the payload carries a download URL (a url property that is a
    non-empty string, as [if (downloadUrl)] tests it).  With a download
    that succeeds, the target file is written with the bytes received.
    In every other case (any other status, no url) nothing is issued and
    the disk is as before. *)
Theorem save_iff_ready env data doc disk0 :
  let '(o, disk1, es) := exec (handleOnlyOfficeCallback env data doc) disk0 in
  let ready := (status data = 2 \/ status data = 6)%Z
               /\ exists u, url data = Some u /\ u <> "" in
  ((exists u es', url data = Some u /\ es = HttpGet u :: es') <-> ready)
  /\ (ready ->
      forall u received,
        url data = Some u ->
        http_get env u = Incoming 200 received true ->
        disk env = Healthy ->
        disk1 = <[fsPath (doc_uri doc) := received]> disk0
        /\ In (Write (fsPath (doc_uri doc)) received) es)
  /\ (~ ready -> o = Resolved /\ disk1 = disk0 /\ es = []).
Proof.
  destruct (exec (handleOnlyOfficeCallback env data doc) disk0)
    as [[o disk1] es] eqn:Hexec.
  intros ready.
  destruct (ready_or_not data) as [Hready | Hnot]; subst ready.
  - pose proof Hready as [Hst [u [Hurl Hne]]].
    rewrite (handle_ready env data doc disk0 u Hst Hurl Hne) in Hexec.
    split; [| split].
    + split; [intros _; exact Hready | intros _].
      destruct (saveDocument_starts_with_request env u (doc_uri doc) disk0)
        as [es' Hes'].
      destruct (exec (saveDocument env u (doc_uri doc)) disk0) as [[o' d'] e'].
      simpl in Hes'. subst e'.
      exists u. destruct o'; inversion Hexec; subst; eexists; split; try reflexivity;
        exact Hurl.
    + intros _ u' received Hurl' Hget Hdisk.
      assert (u' = u) as -> by congruence.
      rewrite (saveDocument_saved env u (doc_uri doc) disk0 received Hget Hdisk)
        in Hexec.
      inversion Hexec; subst. split; [reflexivity |].
      simpl. auto.
    + intros Hn. contradiction.
  - rewrite (handle_not_ready env data doc disk0 Hnot) in Hexec.
    inversion Hexec; subst.
    split; [| split].
    + split; [| intros Hr; contradiction].
      intros [u [es' [_ Hes]]]. discriminate Hes.
    + intros Hr. contradiction.
    + intros _. auto.
Qed.


(** C8. When the download answers with a status code other than 200 (any
    non-success status among them), the save is rejected with the request
    as its only effect: no stream is opened on the target and the disk is
    as before; the reconciler reports the failure to the webview. *)
Theorem non_200_leaves_target env downloadUrl target disk0 code received ended :
  http_get env downloadUrl = Incoming code received ended ->
  code <> 200%Z ->
  exec (saveDocument env downloadUrl target) disk0
  = (Rejected ("Failed to download: " ^ Js.show_Z code), disk0, [HttpGet downloadUrl])
  /\ forall data doc,
      (status data = 2 \/ status data = 6)%Z ->
      url data = Some downloadUrl -> downloadUrl <> "" -> doc_uri doc = target ->
      exec (handleOnlyOfficeCallback env data doc) disk0
      = (Resolved, disk0,
         [ HttpGet downloadUrl;
           PostMessage
             (SaveComplete false
                (Some (String_of_error ("Failed to download: " ^ Js.show_Z code)))) ]).
Proof.
  intros Hget Hcode.
  pose proof (saveDocument_not_200 env downloadUrl target disk0 code received ended
                Hget Hcode) as Hsave.
  split; [exact Hsave |].
  intros data doc Hst Hurl Hne Hdoc.
  rewrite (handle_ready env data doc disk0 downloadUrl Hst Hurl Hne).
  rewrite Hdoc, Hsave. reflexivity.
Qed.

Section Callbacks.

Context `{Runtime}.

(** The handlers that editor sessions bind never throw. *)
Lemma resolveCustomEditor_asynchronous random document files (fs : FileServer Job) :
  asynchronous fs ->
  asynchronous (fst (resolveCustomEditor random document files fs)).
Proof.
  intros Hasync token handler data. unfold resolveCustomEditor. simpl.
  destruct (decide (Js.toString_hex random = token)) as [<- | Hne].
  - rewrite lookup_insert_eq. intros [= <-]. discriminate.
  - rewrite lookup_insert_ne by exact Hne. apply Hasync.
Qed.

Lemma new_asynchronous interfaces : asynchronous (new (J := Job) interfaces).
Proof. intros token handler data Hlookup. simpl in Hlookup.
       rewrite lookup_empty in Hlookup. discriminate Hlookup. Qed.

(** C3. [POST /callback/{token}] with asynchronous handlers.  A body
    that does not parse gets 500 with [error] 1, and nothing runs.  A
    body that parses gets 200 [application/json] with [error] 0,
    whatever the environment makes of the work that the handler left
    behind; for a token with no bound handler no such work exists and
    the world is untouched. *)
Theorem callback_response env token sent (fs : FileServer Job) w :
  asynchronous fs ->
  let '(res, o, w') := serve env (POST_callback token sent) fs w in
  match JSON_parse (String.concat "" sent) with
  | None =>
      res = respond 500 [("Content-Type", HStr "application/json")]
              (Text ("{" ^ Js.dquote ^ "error" ^ Js.dquote ^ ":1}"))
      /\ o = None /\ w' = w
  | Some data =>
      res = respond 200 [("Content-Type", HStr "application/json")]
              (Text ("{" ^ Js.dquote ^ "error" ^ Js.dquote ^ ":0}"))
      /\ (callbackHandlers fs !! token = None -> o = None /\ w' = w)
      /\ (forall handler, callbackHandlers fs !! token = Some handler ->
            exists job, handler data = Spawned job
                        /\ (o, w') = (Some (fst (run env job w)), snd (run env job w)))
  end.
Proof.
  intros Hasync. unfold serve. rewrite FileServerFacts.route_POST_callback.
  unfold handleCallback. simpl.
  destruct (JSON_parse (String.concat "" sent)) as [data|].
  - destruct (callbackHandlers fs !! token) as [handler|] eqn:Hh.
    + destruct (handler data) as [ | job ] eqn:Hcall.
      * exfalso. exact (Hasync token handler data Hh Hcall).
      * destruct (run env job w) as [o w'] eqn:Hrun.
        split; [reflexivity | split].
        -- intros Hnone. discriminate Hnone.
        -- intros handler' [= <-]. exists job. rewrite Hrun. auto.
    + split; [reflexivity | split].
      * auto.
      * intros handler Hsome. discriminate Hsome.
  - auto.
Qed.

End Callbacks.

End ProviderFacts.

(** * The model on sample runs *)

Module Scenarios.

Import FileServer PptxEditorProvider Reference.

Local Notation "s ^ t" := (String.append s t) (at level 30, right associativity).

Example show_port_0 : Js.show_N 0 = "0".
Proof. reflexivity. Qed.

Example show_port_49152 : Js.show_N 49152 = "49152".
Proof. reflexivity. Qed.

Example hex_of_seed : Js.toString_hex seed = "000fa5ff".
Proof. reflexivity. Qed.

Example extname_of_deck : Js.toLowerCase (extname (fsPath deck)) = ".pptx".
Proof. reflexivity. Qed.

Example host_of_eth0 : getHostIp eth0 = "192.168.1.7".
Proof. reflexivity. Qed.

Example parse_status_1 :
  JSON_parse (status_body "1") = Some (Value (payload 1 None)).
Proof. reflexivity. Qed.

Example parse_garbage : JSON_parse "{oops" = None.
Proof. reflexivity. Qed.

Example session_urls :
  registration (snd (resolveCustomEditor seed talk disk0 bound))
  = {| reg_url := "http://192.168.1.7:49152/file/000fa5ff";
       reg_token := "000fa5ff";
       reg_callbackUrl := "http://192.168.1.7:49152/callback/000fa5ff" |}.
Proof. reflexivity. Qed.

Example session_serves_deck :
  request disk0 (GET_file "000fa5ff") session
  = Some (respond 200
            [ ("Content-Type",
                HStr "application/vnd.openxmlformats-officedocument.presentationml.presentation");
              ("Content-Length", HNum 3);
              ("Content-Disposition",
                HStr ("attachment; filename=" ^ Js.dquote ^ "Talk.PPTX" ^ Js.dquote)) ]
            (Stream old_bytes), None).
Proof. vm_compute. reflexivity. Qed.

Example deck_headers :
  let res := serveFile disk0 "000fa5ff" session in
  header "Content-Length" res = Some (HNum 3)
  /\ header "Access-Control-Allow-Origin" res = Some (HStr "*").
Proof. vm_compute. split; reflexivity. Qed.

Example notes_are_octet_stream :
  mimeType <$> servedFiles (fst (registerFile seed notes bound)) !! "000fa5ff"
  = Some "application/octet-stream".
Proof. vm_compute. reflexivity. Qed.

Example unknown_token_is_404 :
  statusCode (fst (handleRequest disk0 (GET_file "ffffffff") session)) = 404%Z.
Proof. vm_compute. reflexivity. Qed.

Example health_of_session :
  body (fst (handleRequest disk0
               {| method := "GET"; req_url := Some "/health"; chunks := [] |} session))
  = Text ("{" ^ Js.quote "status" ^ ":" ^ Js.quote "ok" ^ "," ^ Js.quote "port"
            ^ ":49152}").
Proof. vm_compute. reflexivity. Qed.

(** Two editors opened in the same tick: the second [await start()] is
    over before the socket is bound, and its session gets port 0. *)
Example second_editor_gets_port_0 :
  let first := fst (start (new (J := Job) eth0)) in
  snd (start first) = Now 0%N
  /\ reg_url (registration
                (snd (resolveCustomEditor seed talk disk0 (fst (start first)))))
     = "http://192.168.1.7:0/file/000fa5ff".
Proof. split; reflexivity. Qed.

Example save_round_trip :
  let '(res, o, w) :=
    serve env_ok (POST_callback "000fa5ff" [save_body "2" download_url]) session world0 in
  statusCode res = 200%Z
  /\ o = Some Resolved
  /\ files w !! fsPath deck = Some new_bytes
  /\ effects w
     = [ HttpGet download_url; CreateWriteStream (fsPath deck);
         Write (fsPath deck) new_bytes;
         ShowInformationMessage "Presentation saved successfully";
         PostMessage (SaveComplete true None) ].
Proof. vm_compute. repeat split. Qed.

Example editing_in_progress :
  serve env_ok (POST_callback "000fa5ff" [status_body "1"]) session world0
  = (respond 200 [("Content-Type", HStr "application/json")]
       (Text ("{" ^ Js.dquote ^ "error" ^ Js.dquote ^ ":0}")),
     Some Resolved, world0).
Proof. vm_compute. reflexivity. Qed.

(** A download that breaks off leaves the part that arrived in the
    target, and the save never settles. *)
Example broken_download_leaves_part :
  exec (saveDocument
          {| http_get := service (Incoming 200 (take 2 new_bytes) false);
             disk := Healthy |}
          download_url deck) disk0
  = (Never, <[fsPath deck := take 2 new_bytes]> disk0,
     [ HttpGet download_url; CreateWriteStream (fsPath deck);
       Write (fsPath deck) (take 2 new_bytes) ]).
Proof. apply ProviderFacts.saveDocument_broken_off; reflexivity. Qed.

(** *** The theorems at sample inputs *)

Lemma start_idempotent_witness :
  start bound = (bound, Now 49152%N)
  /\ server (fst (start bound)) = Some (Listening 49152)
  /\ (forall n, after (repeat CallStart n) bound = bound)
  /\ (forall fs' : FileServer Job,
        fully_started fs' -> start fs' = (fs', Now (port fs'))).
Proof.
  apply (FileServerFacts.start_idempotent
           (new eth0) (fst (start (new eth0))) bound 49152%N);
    reflexivity.
Defined.

Lemma stop_clears_witness :
  stop (new (J := Job) eth0) = new eth0
  /\ servedFiles (stop session) = ∅
  /\ callbackHandlers (stop session) = ∅
  /\ port (stop session) = 0%N.
Proof.
  destruct (FileServerFacts.stop_clears session) as [_ Hstarted].
  destruct (Hstarted (Listening 49152%N) eq_refl) as (_ & Hfiles & Hhandlers & Hport & _).
  split; [| auto].
  apply (proj1 (FileServerFacts.stop_clears (new eth0))). reflexivity.
Defined.

(** C6 as stated fails for a token registered on a server that was never
    started: [stop()] finds no server object and keeps the record, and
    after [start()] the token is served. *)
Lemma stop_without_server_keeps_tokens :
  let registered := fst (registerFile seed deck (new (J := Job) eth0)) in
  let restarted :=
    after [CallStop; CallStart; SocketListening (AddressInfo 49152)] registered in
  server registered = None
  /\ stop registered = registered
  /\ exists res,
      request disk0 (GET_file "000fa5ff") restarted = Some (res, None)
      /\ statusCode res = 200%Z
      /\ statusCode res <> 404%Z.
Proof.
  simpl. split; [reflexivity | split; [reflexivity |]].
  eexists. split; [vm_compute; reflexivity |].
  split; [reflexivity | discriminate].
Defined.

Lemma serveFile_registered_witness :
  odd_disk !! fsPath odd = Some old_bytes
  /\ handleRequest odd_disk (GET_file "000fa5ff") (fst (registerFile seed odd bound))
     = (respond 500
          [ ("Content-Type", HStr "text/plain");
            ("Content-Length", HNum (N.of_nat (length old_bytes))) ]
          (Text "Error reading file"), None).
Proof.
  split; [vm_compute; reflexivity |].
  exact (proj1 (proj2 (FileServerFacts.serveFile_registered odd_disk bound ""))
           seed odd old_bytes eq_refl eq_refl).
Defined.

Lemma unregisterFile_frame_witness :
  servedFiles (unregisterFile "000fa5ff" session) !! "000fa5ff" = None
  /\ unregisterFile "ffffffff" session = session.
Proof.
  split.
  - apply (FileServerFacts.unregisterFile_frame session "000fa5ff").
  - apply (FileServerFacts.unregisterFile_frame session "ffffffff"); reflexivity.
Defined.

Lemma registerFile_before_listening_witness :
  let fs := after [CallStart] (new (J := Job) eth0) in
  let r := snd (registerFile seed deck fs) in
  reg_url r = "http://" ^ hostIp fs ^ ":0/file/" ^ reg_token r
  /\ reg_callbackUrl r = "http://" ^ hostIp fs ^ ":0/callback/" ^ reg_token r
  /\ exists record,
      servedFiles (fst (registerFile seed deck fs)) !! reg_token r = Some record
      /\ filePath record = fsPath deck
      /\ token record = reg_token r.
Proof.
  apply (FileServerFacts.registerFile_before_listening eth0 [CallStart] seed deck).
  intros p. discriminate.
Defined.

Lemma save_iff_ready_witness :
  let '(o, disk1, es) :=
    exec (handleOnlyOfficeCallback env_ok (payload 1 None) talk) disk0 in
  o = Resolved /\ disk1 = disk0 /\ es = [].
Proof.
  pose proof (ProviderFacts.save_iff_ready env_ok (payload 1 None) talk disk0) as Hthm.
  destruct (exec (handleOnlyOfficeCallback env_ok (payload 1 None) talk) disk0)
    as [[o disk1] es].
  apply Hthm. intros [[Hst | Hst] _]; discriminate Hst.
Defined.


Lemma non_200_leaves_target_witness :
  exec (saveDocument env_not_found download_url deck) disk0
  = (Rejected "Failed to download: 404", disk0, [HttpGet download_url]).
Proof.
  apply (ProviderFacts.non_200_leaves_target
           env_not_found download_url deck disk0 404 [] true); [reflexivity | lia].
Defined.

Lemma session_asynchronous : asynchronous session.
Proof.
  apply ProviderFacts.resolveCustomEditor_asynchronous.
  intros token handler data Hlookup.
  change (callbackHandlers bound) with (∅ : gmap string (Handler Job)) in Hlookup.
  rewrite lookup_empty in Hlookup. discriminate Hlookup.
Defined.

Lemma callback_response_witness :
  let '(res, o, w') :=
    serve env_not_found (POST_callback "000fa5ff" [save_body "2" download_url])
      session world0 in
  res = respond 200 [("Content-Type", HStr "application/json")]
          (Text ("{" ^ Js.dquote ^ "error" ^ Js.dquote ^ ":0}")).
Proof.
  pose proof (ProviderFacts.callback_response env_not_found "000fa5ff"
                [save_body "2" download_url] session world0 session_asynchronous)
    as Hthm.
  destruct (serve env_not_found _ session world0) as [[res o] w'].
  change (JSON_parse (String.concat "" [save_body "2" download_url]))
    with (Some (Value (payload 2 (Some download_url)))) in Hthm.
  exact (proj1 Hthm).
Defined.

End Scenarios.

(** * Further properties of the file server *)

Module ServerProperties.

Import FileServer.

Local Notation "s ^ t" := (String.append s t) (at level 30, right associativity).

Lemma startsWith_split s p :
  Js.startsWith s p = true -> s = p ^ Js.substring_from (String.length p) s.
Proof.
  revert s. induction p as [ | a p IH ]; intros s Hs; simpl in *.
  - reflexivity.
  - destruct s as [ | b s ]; [discriminate |].
    apply andb_prop in Hs as [Hab Hrest].
    apply Ascii.eqb_eq in Hab. subst b.
    change (String a s = String a (p ^ Js.substring_from (String.length p) s)).
    f_equal. exact (IH s Hrest).
Qed.

Lemma show_Z_of_N n : Js.show_Z (Z.of_N n) = Js.show_N n.
Proof. destruct n; reflexivity. Qed.

Section Properties.

Context {J : Type} `{Runtime}.

Implicit Types (fs : FileServer J) (t token : string).

(** X1. Whatever the request and the state of the server, the response
    carries the three CORS headers, ahead of the headers of the route. *)
Theorem cors_on_every_response files req fs :
  let res := fst (handleRequest files req fs) in
  (exists route, headers res = (cors ++ route)%list)
  /\ header "Access-Control-Allow-Origin" res = Some (HStr "*")
  /\ header "Access-Control-Allow-Methods" res = Some (HStr "GET, POST, OPTIONS")
  /\ header "Access-Control-Allow-Headers" res = Some (HStr "Content-Type").
Proof.
  assert (forall code hs b,
             (exists route, headers (respond code hs b) = (cors ++ route)%list)
             /\ header "Access-Control-Allow-Origin" (respond code hs b) = Some (HStr "*")
             /\ header "Access-Control-Allow-Methods" (respond code hs b)
                = Some (HStr "GET, POST, OPTIONS")
             /\ header "Access-Control-Allow-Headers" (respond code hs b)
                = Some (HStr "Content-Type")) as Hrespond.
  { intros code hs b. split; [exists hs; reflexivity | repeat split]. }
  unfold handleRequest.
  destruct (String.eqb (method req) "OPTIONS"); [apply Hrespond |].
  destruct (Js.startsWith _ "/file/" && String.eqb (method req) "GET").
  - simpl. unfold serveFile.
    destruct (servedFiles fs !! _) as [info|]; [| apply Hrespond].
    destruct (files !! filePath info); [| apply Hrespond].
    destruct (validHeaderValue _); apply Hrespond.
  - destruct (Js.startsWith _ "/callback/" && String.eqb (method req) "POST").
    + unfold handleCallback.
      destruct (JSON_parse _); [| apply Hrespond].
      destruct (callbackHandlers fs !! _) as [handler|]; [| apply Hrespond].
      destruct (handler _); apply Hrespond.
    + destruct (String.eqb _ "/health"); apply Hrespond.
Qed.

(** X2. Work is spawned by nothing but a [POST] whose URL starts with
    [/callback/], whose body parses, and whose token (all of the URL after
    the prefix) has a bound handler; it is what that handler returned on
    the parsed body, and the response is then 200. *)
Theorem work_only_from_callback_post files req fs job :
  snd (handleRequest files req fs) = Some job ->
  method req = "POST"
  /\ exists token handler data,
      Js.or_else (req_url req) "/" = "/callback/" ^ token
      /\ callbackHandlers fs !! token = Some handler
      /\ JSON_parse (String.concat "" (chunks req)) = Some data
      /\ handler data = Spawned job
      /\ statusCode (fst (handleRequest files req fs)) = 200%Z.
Proof.
  unfold handleRequest.
  destruct (String.eqb (method req) "OPTIONS"); [discriminate |].
  destruct (Js.startsWith _ "/file/" && String.eqb (method req) "GET");
    [discriminate |].
  destruct (Js.startsWith _ "/callback/" && String.eqb (method req) "POST") eqn:Hroute.
  - apply andb_prop in Hroute as [Hprefix Hmethod].
    apply String.eqb_eq in Hmethod. apply startsWith_split in Hprefix.
    unfold handleCallback.
    destruct (JSON_parse _) as [data|] eqn:Hparse; [| discriminate].
    destruct (callbackHandlers fs !! _) as [handler|] eqn:Hh; [| discriminate].
    destruct (handler data) as [ | job' ] eqn:Hcall; [discriminate |].
    simpl. intros [= <-]. split; [exact Hmethod |].
    exists (Js.substring_from 10 (Js.or_else (req_url req) "/")), handler, data.
    repeat split; assumption.
  - destruct (String.eqb _ "/health"); discriminate.
Qed.

(** X3. A token whose record points at a path with no file (the file was
    removed after the registration) gets 500 in plain text, and nothing
    is spawned. *)
Theorem serveFile_missing_file files fs t info :
  servedFiles fs !! t = Some info ->
  files !! filePath info = None ->
  handleRequest files (GET_file t) fs
  = (respond 500 [("Content-Type", HStr "text/plain")] (Text "Error reading file"),
     None).
Proof.
  intros Hinfo Hfile. rewrite FileServerFacts.route_GET_file.
  unfold serveFile. rewrite Hinfo, Hfile. reflexivity.
Qed.

(** X4. A bound handler that throws when called turns a body that parses
    into the answer for a body that does not: 500 with [error] 1. *)
Theorem throwing_handler_gets_500 files fs t sent handler data :
  JSON_parse (String.concat "" sent) = Some data ->
  callbackHandlers fs !! t = Some handler ->
  handler data = Threw ->
  handleRequest files (POST_callback t sent) fs
  = (respond 500 [("Content-Type", HStr "application/json")]
       (Text ("{" ^ Js.dquote ^ "error" ^ Js.dquote ^ ":1}")), None).
Proof.
  intros Hparse Hh Hcall. rewrite FileServerFacts.route_POST_callback.
  unfold handleCallback. simpl. rewrite Hparse, Hh, Hcall. reflexivity.
Qed.

(** X5. [/health] answers every method but [OPTIONS] with 200 and the
    recorded port, whatever the registry holds. *)
Theorem health_reports_port files fs m sent :
  m <> "OPTIONS" ->
  handleRequest files {| method := m; req_url := Some "/health"; chunks := sent |} fs
  = (respond 200 [("Content-Type", HStr "application/json")]
       (Text ("{" ^ Js.quote "status" ^ ":" ^ Js.quote "ok" ^ ","
                ^ Js.quote "port" ^ ":" ^ Js.show_N (getPort fs) ^ "}")), None).
Proof.
  intros Hm. unfold handleRequest. simpl.
  destruct (String.eqb_spec m "OPTIONS") as [-> | _]; [congruence |].
  unfold Js.JSON_stringify. rewrite show_Z_of_N. reflexivity.
Qed.

(** *** The host address *)

Lemma first_external_Some iface a :
  first_external iface = Some a ->
  exists info, In info iface /\ internal info = false
               /\ family info = "IPv4" /\ address info = a.
Proof.
  induction iface as [ | info rest IH ]; simpl; [discriminate |].
  destruct (negb (internal info) && String.eqb (family info) "IPv4") eqn:Htest.
  - intros [= <-]. apply andb_prop in Htest as [Hint Hfam].
    exists info. repeat split.
    + left. reflexivity.
    + destruct (internal info); [discriminate | reflexivity].
    + apply String.eqb_eq. exact Hfam.
  - intros Hrest. destruct (IH Hrest) as (info' & Hin & Hprops).
    exists info'. split; [right; exact Hin | exact Hprops].
Qed.

Lemma first_external_None iface :
  first_external iface = None ->
  forall info, In info iface -> internal info = true \/ family info <> "IPv4".
Proof.
  induction iface as [ | info rest IH ]; simpl; [intros _ ? [] |].
  destruct (negb (internal info) && String.eqb (family info) "IPv4") eqn:Htest;
    [discriminate |].
  intros Hrest info' [<- | Hin]; [| exact (IH Hrest info' Hin)].
  apply andb_false_iff in Htest as [Hint | Hfam].
  - left. destruct (internal info); [reflexivity | discriminate].
  - right. intros Heq. apply String.eqb_eq in Heq. congruence.
Qed.

(** X6. [getHostIp] returns the address of an entry that is external and
    IPv4 when the interfaces have one, and [127.0.0.1] exactly when they
    have none. *)
Theorem getHostIp_external_or_loopback
    (interfaces : list (string * option (list NetworkInterfaceInfo))) :
  (exists name iface info,
      In (name, Some iface) interfaces /\ In info iface
      /\ internal info = false /\ family info = "IPv4"
      /\ getHostIp interfaces = address info)
  \/ (getHostIp interfaces = "127.0.0.1"
      /\ forall name iface info,
          In (name, Some iface) interfaces -> In info iface ->
          internal info = true \/ family info <> "IPv4").
Proof.
  induction interfaces as [ | [name [iface|]] rest IH ]; simpl.
  - right. split; [reflexivity | intros ? ? ? []].
  - destruct (first_external iface) as [a|] eqn:Hfirst.
    + left. destruct (first_external_Some iface a Hfirst)
        as (info & Hin & Hint & Hfam & Haddr).
      exists name, iface, info. repeat split; auto.
    + destruct IH as [(name' & iface' & info & Hin & Hrest) | [Hloop Hnone]].
      * left. exists name', iface', info. split; [right; exact Hin | exact Hrest].
      * right. split; [exact Hloop |].
        intros name' iface' info [Heq | Hin] Hinfo.
        -- inversion Heq; subst. exact (first_external_None iface' Hfirst info Hinfo).
        -- exact (Hnone name' iface' info Hin Hinfo).
  - destruct IH as [(name' & iface' & info & Hin & Hrest) | [Hloop Hnone]].
    + left. exists name', iface', info. split; [right; exact Hin | exact Hrest].
    + right. split; [exact Hloop |].
      intros name' iface' info [Heq | Hin] Hinfo; [discriminate Heq |].
      exact (Hnone name' iface' info Hin Hinfo).
Qed.

(** *** Registrations *)

(** X7. [registerFile] touches nothing but the record of its own token:
    the records of other tokens, all bindings, the server object, the port
    and the host stay; a second registration under the same token replaces
    the first. *)
Theorem registerFile_frame random u fs :
  let fs' := fst (registerFile random u fs) in
  (forall t, t <> Js.toString_hex random -> servedFiles fs' !! t = servedFiles fs !! t)
  /\ callbackHandlers fs' = callbackHandlers fs
  /\ server fs' = server fs
  /\ port fs' = port fs
  /\ hostIp fs' = hostIp fs
  /\ forall u0,
      fst (registerFile random u (fst (registerFile random u0 fs))) = fs'.
Proof.
  simpl. repeat split.
  - intros t Ht. apply lookup_insert_ne. congruence.
  - intros u0. apply FileServerFacts.FileServer_eq; simpl; try reflexivity.
    apply insert_insert_eq.
Qed.

(** X8. [onCallback] keeps one handler per token, the last one bound, and
    leaves the records and the handlers of other tokens alone; a [POST] to
    the token is answered by that last handler. *)
Theorem onCallback_last_wins t (h1 h2 : Handler J) fs files sent :
  onCallback t h2 (onCallback t h1 fs) = onCallback t h2 fs
  /\ callbackHandlers (onCallback t h2 fs) !! t = Some h2
  /\ (forall t', t' <> t ->
        callbackHandlers (onCallback t h2 fs) !! t' = callbackHandlers fs !! t')
  /\ servedFiles (onCallback t h2 fs) = servedFiles fs
  /\ handleRequest files (POST_callback t sent) (onCallback t h2 (onCallback t h1 fs))
     = match JSON_parse (String.concat "" sent) with
       | Some data =>
           match h2 data with
           | Spawned job =>
               (respond 200 [("Content-Type", HStr "application/json")]
                  (Text ("{" ^ Js.dquote ^ "error" ^ Js.dquote ^ ":0}")), Some job)
           | Threw =>
               (respond 500 [("Content-Type", HStr "application/json")]
                  (Text ("{" ^ Js.dquote ^ "error" ^ Js.dquote ^ ":1}")), None)
           end
       | None =>
           (respond 500 [("Content-Type", HStr "application/json")]
              (Text ("{" ^ Js.dquote ^ "error" ^ Js.dquote ^ ":1}")), None)
       end.
Proof.
  assert (onCallback t h2 (onCallback t h1 fs) = onCallback t h2 fs) as Hlast.
  { apply FileServerFacts.FileServer_eq; simpl; try reflexivity.
    apply insert_insert_eq. }
  split; [exact Hlast | split; [apply lookup_insert_eq | split; [| split]]].
  - intros t' Ht'. simpl. apply lookup_insert_ne. congruence.
  - reflexivity.
  - rewrite Hlast, FileServerFacts.route_POST_callback.
    unfold handleCallback. simpl.
    destruct (JSON_parse _) as [data|]; [| reflexivity].
    rewrite lookup_insert_eq. destruct (h2 data); reflexivity.
Qed.

(** *** Tokens *)

Lemma toString_hex_cons b buf :
  Js.toString_hex (b :: buf)
  = String (Js.hex_digit (Byte.to_N b / 16))
      (String (Js.hex_digit (Byte.to_N b mod 16)) (Js.toString_hex buf)).
Proof. reflexivity. Qed.

Lemma hex_digits_of_byte b :
  In (Js.hex_digit (Byte.to_N b / 16)) (list_ascii_of_string "0123456789abcdef")
  /\ In (Js.hex_digit (Byte.to_N b mod 16)) (list_ascii_of_string "0123456789abcdef").
Proof.
  destruct b; split; vm_compute; repeat (first [left; reflexivity | right]).
Qed.

Lemma toString_hex_chars (P : ascii -> Prop) :
  (forall b, P (Js.hex_digit (Byte.to_N b / 16))
             /\ P (Js.hex_digit (Byte.to_N b mod 16))) ->
  forall buf, Forall P (list_ascii_of_string (Js.toString_hex buf)).
Proof.
  intros Hdigits buf. induction buf as [ | b buf IH ].
  - constructor.
  - rewrite toString_hex_cons.
    change (Forall P (Js.hex_digit (Byte.to_N b / 16)
                        :: Js.hex_digit (Byte.to_N b mod 16)
                        :: list_ascii_of_string (Js.toString_hex buf))).
    destruct (Hdigits b) as [Hhi Hlo].
    constructor; [exact Hhi | constructor; [exact Hlo | exact IH]].
Qed.

Lemma toString_hex_length buf :
  String.length (Js.toString_hex buf) = 2 * length buf.
Proof.
  induction buf as [ | b buf IH ]; [reflexivity |].
  rewrite toString_hex_cons.
  change (S (S (String.length (Js.toString_hex buf))) = 2 * S (length buf)).
  rewrite IH. lia.
Qed.

Lemma hex_byte_inj a b : Js.hex_byte a = Js.hex_byte b -> a = b.
Proof.
  pose (value := fun c : ascii =>
                   let n := N_of_ascii c in
                   if (n <? 58)%N then (n - 48)%N else (n - 87)%N).
  pose (decode := fun s : string =>
                    match s with
                    | String x (String y EmptyString) =>
                        Byte.of_N (16 * value x + value y)
                    | _ => None
                    end).
  assert (forall c, decode (Js.hex_byte c) = Some c) as Hdecode.
  { intros c. destruct c; vm_compute; reflexivity. }
  intros Heq. pose proof (Hdecode a) as Ha. rewrite Heq, Hdecode in Ha.
  congruence.
Qed.

Lemma toString_hex_inj buf1 buf2 :
  Js.toString_hex buf1 = Js.toString_hex buf2 -> buf1 = buf2.
Proof.
  revert buf2. induction buf1 as [ | a buf1 IH ]; intros [ | b buf2 ] Heq.
  - reflexivity.
  - rewrite toString_hex_cons in Heq. discriminate Heq.
  - rewrite toString_hex_cons in Heq. discriminate Heq.
  - rewrite !toString_hex_cons in Heq. injection Heq as Hhi Hlo Hrest.
    f_equal; [| exact (IH buf2 Hrest)].
    apply hex_byte_inj. unfold Js.hex_byte. rewrite Hhi, Hlo. reflexivity.
Qed.

(** X9. The token of a registration spells its random bytes in lower-case
    hexadecimal, two characters a byte: 32 characters for the 16 bytes
    that [registerFile] draws. *)
Theorem token_is_hex random u fs :
  let t := reg_token (snd (registerFile random u fs)) in
  String.length t = 2 * length random
  /\ (length random = 16 -> String.length t = 32)
  /\ Forall (fun c => In c (list_ascii_of_string "0123456789abcdef"))
       (list_ascii_of_string t).
Proof.
  intros t. subst t.
  change (reg_token (snd (registerFile random u fs))) with (Js.toString_hex random).
  pose proof (toString_hex_length random) as Hlen.
  split; [exact Hlen | split; [intros H16; rewrite Hlen, H16; reflexivity |]].
  apply toString_hex_chars. exact hex_digits_of_byte.
Qed.

(** X10. Registrations made with different random buffers get different
    tokens, and both are served: each token keeps the path it was
    registered for. *)
Theorem registrations_coexist random1 random2 u1 u2 fs :
  random1 <> random2 ->
  let r1 := registerFile random1 u1 fs in
  let r2 := registerFile random2 u2 (fst r1) in
  reg_token (snd r1) <> reg_token (snd r2)
  /\ filePath <$> servedFiles (fst r2) !! reg_token (snd r1) = Some (fsPath u1)
  /\ filePath <$> servedFiles (fst r2) !! reg_token (snd r2) = Some (fsPath u2).
Proof.
  intros Hne. simpl.
  assert (Js.toString_hex random1 <> Js.toString_hex random2) as Htokens.
  { intros Heq. apply Hne. exact (toString_hex_inj _ _ Heq). }
  split; [exact Htokens | split].
  - rewrite lookup_insert_ne by congruence. rewrite lookup_insert_eq. reflexivity.
  - rewrite lookup_insert_eq. reflexivity.
Qed.

(** *** What holds in every reachable state *)

Lemma step_well_formed fs e : well_formed fs -> well_formed (step fs e).
Proof.
  intros Hwf. destruct e as [ | a | err | | random u | t | t h ]; simpl.
  - unfold start. destruct (server fs); exact Hwf.
  - unfold on_listening. destruct (server fs); [| exact Hwf].
    destruct a; exact Hwf.
  - exact Hwf.
  - unfold stop. destruct (server fs); [| exact Hwf].
    intros t record Hlookup. simpl in Hlookup.
    rewrite lookup_empty in Hlookup. discriminate Hlookup.
  - intros t record. simpl.
    destruct (decide (Js.toString_hex random = t)) as [<- | Hne].
    + rewrite lookup_insert_eq. intros [= <-]. simpl.
      rewrite FileServerFacts.mimeType_of_extension. auto.
    + rewrite lookup_insert_ne by exact Hne. apply Hwf.
  - intros t' record. simpl.
    destruct (decide (t = t')) as [<- | Hne].
    + rewrite lookup_delete_eq. discriminate.
    + rewrite lookup_delete_ne by exact Hne. apply Hwf.
  - exact Hwf.
Qed.

Lemma after_well_formed events : forall fs, well_formed fs -> well_formed (after events fs).
Proof.
  induction events as [ | e events IH ]; intros fs Hwf; simpl.
  - exact Hwf.
  - apply IH, step_well_formed, Hwf.
Qed.

(** X11. In every state that the public operations and the socket events
    lead to from a new server, each record sits under its own token and
    has the MIME type of the extension of its path; a file that is there
    is served with that type when Node accepts the disposition naming
    its basename, and with the plain-text type of the 500 answer when it
    does not. *)
Theorem served_type_matches_path interfaces events files t record content :
  let fs := after events (new (J := J) interfaces) in
  servedFiles fs !! t = Some record ->
  files !! filePath record = Some content ->
  token record = t
  /\ filePath record = fsPath (uri record)
  /\ mimeType record
     = match mimeTypes (Js.toLowerCase (extname (filePath record))) with
       | Some m => m
       | None => "application/octet-stream"
       end
  /\ header "Content-Type" (fst (handleRequest files (GET_file t) fs))
     = Some (HStr (if validHeaderValue ("attachment; filename=" ^ Js.dquote
                                          ^ basename (filePath record) ^ Js.dquote)
                   then match mimeTypes (Js.toLowerCase
                                           (extname (filePath record))) with
                        | Some m => m
                        | None => "application/octet-stream"
                        end
                   else "text/plain")).
Proof.
  intros fs Hrecord Hfile.
  assert (well_formed fs) as Hwf.
  { apply after_well_formed. intros t' r Hnone. simpl in Hnone.
    rewrite lookup_empty in Hnone. discriminate Hnone. }
  destruct (Hwf t record Hrecord) as (Htoken & Hpath & Hmime).
  split; [exact Htoken | split; [exact Hpath | split; [exact Hmime |]]].
  rewrite FileServerFacts.route_GET_file. unfold serveFile.
  rewrite Hrecord, Hfile. simpl.
  destruct (validHeaderValue _); simpl; [rewrite Hmime |]; reflexivity.
Qed.

(** X12. In every such state the recorded port is tied to the socket: a
    port other than 0 means a listening socket bound to that port, a
    listening socket means its port is the recorded one, and no server
    object means port 0. *)
Theorem port_follows_socket interfaces events :
  let fs := after events (new (J := J) interfaces) in
  (getPort fs <> 0%N -> fully_started fs)
  /\ (forall p, server fs = Some (Listening p) -> getPort fs = p)
  /\ (server fs = None -> fully_stopped fs).
Proof.
  intros fs.
  pose proof (FileServerFacts.after_consistent events _
                (FileServerFacts.new_consistent interfaces)) as Hc.
  fold fs in Hc. unfold consistent in Hc. unfold getPort, fully_started, fully_stopped.
  destruct (server fs) as [[ | q | ]|] eqn:Hs.
  - split; [intros Hp; contradiction | split; [intros p [=] | discriminate]].
  - split; [intros _; exists q; auto | split; [intros p [= <-]; exact Hc | discriminate]].
  - split; [intros Hp; contradiction | split; [intros p [=] | discriminate]].
  - split; [intros Hp; contradiction | split; [intros p [=] | auto]].
Qed.

End Properties.

End ServerProperties.

(** * Further properties of the save path *)

Module SaveProperties.

Import FileServer PptxEditorProvider.

Local Notation "s ^ t" := (String.append s t) (at level 30, right associativity).

(** [saveDocument] in one table: the world at the moment it settles. *)
Lemma saveDocument_run env downloadUrl target disk0 :
  saveDocument env downloadUrl target (fresh disk0)
  = let p := fsPath target in
    let world disk1 es waiting :=
      {| files := disk1; effects := es; unlinking := waiting |} in
    let failing received :=
      match disk env with
      | Healthy => None
      | OpenFails open_err =>
          Some (Rejected open_err,
                world disk0 [HttpGet downloadUrl; CreateWriteStream p; Unlink p] [p])
      | WriteFails written write_err =>
          Some (Rejected write_err,
                world (<[p := take written received]> disk0)
                  [ HttpGet downloadUrl; CreateWriteStream p;
                    Write p (take written received); Unlink p ] [p])
      end in
    match http_get env downloadUrl with
    | RequestError err => (Rejected err, world disk0 [HttpGet downloadUrl] [])
    | Refused thrown => (Thrown thrown, world disk0 [HttpGet downloadUrl] [])
    | Incoming code received ended =>
        if (code =? 200)%Z then
          match failing received with
          | Some failed => failed
          | None =>
              if ended then
                (Resolved,
                 world (<[p := received]> disk0)
                   [ HttpGet downloadUrl; CreateWriteStream p; Write p received;
                     ShowInformationMessage "Presentation saved successfully" ] [])
              else
                (Never,
                 world (<[p := received]> disk0)
                   [HttpGet downloadUrl; CreateWriteStream p; Write p received] [])
          end
        else
          (Rejected ("Failed to download: " ^ Js.show_Z code),
           world disk0 [HttpGet downloadUrl] [])
    | Interrupted received err =>
        match failing received with
        | Some failed => failed
        | None =>
            (Rejected err,
             world (<[p := received]> disk0)
               [HttpGet downloadUrl; CreateWriteStream p; Write p received] [])
        end
    end.
Proof.
  unfold fresh, saveDocument, createWriteStream, write, unlink, issue_unlink,
    emit, update, mbind, mret, M_bind, M_ret, bind, ret; simpl.
  destruct (http_get env downloadUrl)
    as [err | code received ended | thrown | received err]; simpl;
    try reflexivity.
  - destruct (code =? 200)%Z; simpl; [| reflexivity].
    destruct (disk env) as [ | open_err | written write_err ]; simpl;
      [destruct ended; simpl | |];
      rewrite ?ProviderFacts.write_after_create; reflexivity.
  - destruct (disk env) as [ | open_err | written write_err ]; simpl;
      rewrite ?ProviderFacts.write_after_create; reflexivity.
Qed.

(** The same with the unlinks carried out. *)
Lemma saveDocument_cases env downloadUrl target disk0 :
  exec (saveDocument env downloadUrl target) disk0
  = let p := fsPath target in
    let failing received :=
      match disk env with
      | Healthy => None
      | OpenFails open_err =>
          Some (Rejected open_err, delete p disk0,
                [HttpGet downloadUrl; CreateWriteStream p; Unlink p])
      | WriteFails written write_err =>
          Some (Rejected write_err, delete p disk0,
                [ HttpGet downloadUrl; CreateWriteStream p;
                  Write p (take written received); Unlink p ])
      end in
    match http_get env downloadUrl with
    | RequestError err => (Rejected err, disk0, [HttpGet downloadUrl])
    | Refused thrown => (Thrown thrown, disk0, [HttpGet downloadUrl])
    | Incoming code received ended =>
        if (code =? 200)%Z then
          match failing received with
          | Some failed => failed
          | None =>
              if ended then
                (Resolved, <[p := received]> disk0,
                 [ HttpGet downloadUrl; CreateWriteStream p; Write p received;
                   ShowInformationMessage "Presentation saved successfully" ])
              else
                (Never, <[p := received]> disk0,
                 [HttpGet downloadUrl; CreateWriteStream p; Write p received])
          end
        else
          (Rejected ("Failed to download: " ^ Js.show_Z code), disk0,
           [HttpGet downloadUrl])
    | Interrupted received err =>
        match failing received with
        | Some failed => failed
        | None =>
            (Rejected err, <[p := received]> disk0,
             [HttpGet downloadUrl; CreateWriteStream p; Write p received])
        end
    end.
Proof.
  unfold exec. rewrite saveDocument_run. cbv zeta.
  destruct (http_get env downloadUrl)
    as [err | code received ended | thrown | received err]; try reflexivity.
  - destruct (code =? 200)%Z; [| reflexivity].
    destruct (disk env) as [ | open_err | written write_err ];
      [destruct ended; reflexivity | reflexivity |].
    unfold complete_unlinks. simpl. rewrite delete_insert_eq. reflexivity.
  - destruct (disk env) as [ | open_err | written write_err ];
      [reflexivity | reflexivity |].
    unfold complete_unlinks. simpl. rewrite delete_insert_eq. reflexivity.
Qed.

(** [handleOnlyOfficeCallback] is [saveDocument] followed by one message,
    or nothing at all. *)
Lemma handle_run env data doc disk0 :
  (exists u,
      (status data = 2 \/ status data = 6)%Z /\ url data = Some u /\ u <> ""
      /\ handleOnlyOfficeCallback env data doc (fresh disk0)
         = let '(o, w) := saveDocument env u (doc_uri doc) (fresh disk0) in
           match o with
           | Resolved =>
               (Resolved, snd (emit (PostMessage (SaveComplete true None)) w))
           | Rejected err =>
               (Resolved,
                snd (emit (PostMessage
                             (SaveComplete false (Some (String_of_error err)))) w))
           | Thrown thrown =>
               (Resolved,
                snd (emit (PostMessage (SaveComplete false (Some thrown))) w))
           | Never => (Never, w)
           end)
  \/ (~ ((status data = 2 \/ status data = 6)%Z
         /\ exists u, url data = Some u /\ u <> "")
      /\ handleOnlyOfficeCallback env data doc (fresh disk0)
         = (Resolved, fresh disk0)).
Proof.
  destruct (ProviderFacts.ready_or_not data) as [[Hst [u [Hurl Hne]]] | Hnot].
  - left. exists u. repeat split; try assumption.
    unfold handleOnlyOfficeCallback.
    assert (((status data =? 2)%Z || (status data =? 6)%Z) = true) as ->.
    { destruct Hst as [-> | ->]; reflexivity. }
    rewrite Hurl. destruct u as [ | c u ]; [congruence |].
    unfold mbind, M_bind, bind.
    destruct (saveDocument env (String c u) (doc_uri doc) (fresh disk0)) as [o w].
    destruct o; reflexivity.
  - right. split; [exact Hnot |].
    unfold handleOnlyOfficeCallback.
    destruct (Z.eqb_spec (status data) 2) as [H2|H2];
      destruct (Z.eqb_spec (status data) 6) as [H6|H6]; simpl;
      try reflexivity;
      (destruct (url data) as [[ | c u ]|] eqn:Hurl; try reflexivity;
       exfalso; apply Hnot; split; [ auto | exists (String c u); split; congruence ]).
Qed.

(** The same with the unlinks carried out. *)
Lemma handle_cases env data doc disk0 :
  (exists u,
      (status data = 2 \/ status data = 6)%Z /\ url data = Some u /\ u <> ""
      /\ exec (handleOnlyOfficeCallback env data doc) disk0
         = let '(o, disk1, es) := exec (saveDocument env u (doc_uri doc)) disk0 in
           match o with
           | Resolved =>
               (Resolved, disk1, (es ++ [PostMessage (SaveComplete true None)])%list)
           | Rejected err =>
               (Resolved, disk1,
                (es ++ [PostMessage (SaveComplete false (Some (String_of_error err)))])%list)
           | Never => (Never, disk1, es)
           | Thrown thrown =>
               (Resolved, disk1,
                (es ++ [PostMessage (SaveComplete false (Some thrown))])%list)
           end)
  \/ (~ ((status data = 2 \/ status data = 6)%Z
         /\ exists u, url data = Some u /\ u <> "")
      /\ exec (handleOnlyOfficeCallback env data doc) disk0 = (Resolved, disk0, [])).
Proof.
  destruct (ProviderFacts.ready_or_not data) as [[Hst [u [Hurl Hne]]] | Hnot].
  - left. exists u. repeat split; try assumption.
    exact (ProviderFacts.handle_ready env data doc disk0 u Hst Hurl Hne).
  - right. split; [exact Hnot |].
    exact (ProviderFacts.handle_not_ready env data doc disk0 Hnot).
Qed.

(** X13. Whatever the download and the disk do, [saveDocument] changes no
    path other than its target, and every stream it opens, every write and
    every unlink is on the target. *)
Theorem saveDocument_only_target env downloadUrl target disk0 :
  let '(o, disk1, es) := exec (saveDocument env downloadUrl target) disk0 in
  (forall q, q <> fsPath target -> disk1 !! q = disk0 !! q)
  /\ Forall (fun e =>
              match e with
              | CreateWriteStream p | Write p _ | Unlink p => p = fsPath target
              | HttpGet from => from = downloadUrl
              | ShowInformationMessage _ => True
              | PostMessage _ => False
              end) es.
Proof.
  rewrite saveDocument_cases. cbv zeta.
  assert (forall q received, q <> fsPath target ->
            <[fsPath target := received]> disk0 !! q = disk0 !! q) as Hinsert
      by (intros q received Hq; apply lookup_insert_ne; congruence).
  assert (forall q, q <> fsPath target ->
            delete (fsPath target) disk0 !! q = disk0 !! q) as Hdelete
      by (intros q Hq; apply lookup_delete_ne; congruence).
  destruct (http_get env downloadUrl)
    as [err | code received ended | thrown | received err].
  - split; [reflexivity | repeat constructor].
  - destruct (code =? 200)%Z; [| split; [reflexivity | repeat constructor]].
    destruct (disk env) as [ | open_err | written write_err ]; [destruct ended | |];
      (split; [intros q Hq; auto | repeat constructor]).
  - split; [reflexivity | repeat constructor].
  - destruct (disk env) as [ | open_err | written write_err ];
      (split; [intros q Hq; auto | repeat constructor]).
Qed.

(** X14. When the download fails before any response, the disk is as
    before and the reconciler posts the failure with the text of the
    error: for an ['error'] on the request, an [Error], that is [Error: ]
    and its message; for a URL that [http.get] refuses by throwing, what
    [String] gives for the exception, which for an error that keeps
    [Error.prototype.toString] is its name, a colon and its message.  An
    ['error'] on the request that comes after a part of a 200 body is
    posted in the same way, but with that part written over the target
    and no unlink issued. *)
Theorem request_error_leaves_disk env downloadUrl target disk0 :
  (forall err,
      http_get env downloadUrl = RequestError err ->
      exec (saveDocument env downloadUrl target) disk0
      = (Rejected err, disk0, [HttpGet downloadUrl])
      /\ forall data doc,
          (status data = 2 \/ status data = 6)%Z ->
          url data = Some downloadUrl -> downloadUrl <> "" -> doc_uri doc = target ->
          exec (handleOnlyOfficeCallback env data doc) disk0
          = (Resolved, disk0,
             [ HttpGet downloadUrl;
               PostMessage (SaveComplete false (Some (String_of_error err))) ]))
  /\ (forall thrown,
        http_get env downloadUrl = Refused thrown ->
        exec (saveDocument env downloadUrl target) disk0
        = (Thrown thrown, disk0, [HttpGet downloadUrl])
        /\ forall data doc,
            (status data = 2 \/ status data = 6)%Z ->
            url data = Some downloadUrl -> downloadUrl <> "" -> doc_uri doc = target ->
            exec (handleOnlyOfficeCallback env data doc) disk0
            = (Resolved, disk0,
               [ HttpGet downloadUrl;
                 PostMessage (SaveComplete false (Some thrown)) ]))
  /\ (forall name message,
        name <> "" -> message <> "" ->
        Error_toString name message = name ^ ": " ^ message)
  /\ (forall received err,
        http_get env downloadUrl = Interrupted received err ->
        disk env = Healthy ->
        forall data doc,
          (status data = 2 \/ status data = 6)%Z ->
          url data = Some downloadUrl -> downloadUrl <> "" -> doc_uri doc = target ->
          handleOnlyOfficeCallback env data doc (fresh disk0)
          = (Resolved,
             {| files := <[fsPath target := received]> disk0;
                effects :=
                  [ HttpGet downloadUrl; CreateWriteStream (fsPath target);
                    Write (fsPath target) received;
                    PostMessage (SaveComplete false (Some (String_of_error err))) ];
                unlinking := [] |})).
Proof.
  split; [| split; [| split]].
  - intros err Hget.
    assert (exec (saveDocument env downloadUrl target) disk0
            = (Rejected err, disk0, [HttpGet downloadUrl])) as Hsave.
    { rewrite saveDocument_cases, Hget. reflexivity. }
    split; [exact Hsave |].
    intros data doc Hst Hurl Hne Hdoc.
    rewrite (ProviderFacts.handle_ready env data doc disk0 downloadUrl Hst Hurl Hne).
    rewrite Hdoc, Hsave. reflexivity.
  - intros thrown Hget.
    assert (exec (saveDocument env downloadUrl target) disk0
            = (Thrown thrown, disk0, [HttpGet downloadUrl])) as Hsave.
    { rewrite saveDocument_cases, Hget. reflexivity. }
    split; [exact Hsave |].
    intros data doc Hst Hurl Hne Hdoc.
    rewrite (ProviderFacts.handle_ready env data doc disk0 downloadUrl Hst Hurl Hne).
    rewrite Hdoc, Hsave. reflexivity.
  - intros [ | a name ] [ | b message ] Hname Hmessage; try congruence. reflexivity.
  - intros received err Hget Hdisk data doc Hst Hurl Hne Hdoc.
    destruct (handle_run env data doc disk0)
      as [(u & _ & Hurl' & _ & ->) | [Hnot _]];
      [| exfalso; apply Hnot; split; [exact Hst | exists downloadUrl; auto]].
    assert (u = downloadUrl) as -> by congruence.
    rewrite Hdoc, saveDocument_run, Hget, Hdisk. reflexivity.
Qed.

(** X15. When the write stream on the target cannot be opened, the code
    unlinks the target all the same: a file that was there before the save
    is gone, although nothing was written. *)
Theorem open_failure_unlinks_earlier_file env downloadUrl target disk0 received ended err :
  http_get env downloadUrl = Incoming 200 received ended ->
  disk env = OpenFails err ->
  let '(o, disk1, es) := exec (saveDocument env downloadUrl target) disk0 in
  o = Rejected err
  /\ disk1 !! fsPath target = None
  /\ es = [ HttpGet downloadUrl; CreateWriteStream (fsPath target);
            Unlink (fsPath target) ]
  /\ forall data, ~ In (Write (fsPath target) data) es.
Proof.
  intros Hget Hdisk. rewrite saveDocument_cases, Hget, Hdisk. simpl.
  split; [reflexivity | split; [apply lookup_delete_eq | split; [reflexivity |]]].
  intros data [Heq | [Heq | [Heq | []]]]; discriminate Heq.
Qed.

(** A download whose body breaks off before its end leaves the part that
    arrived in the target, and the reconciler posts no message and shows
    none. *)
Lemma broken_download_never_settles env data doc disk0 u received :
  (status data = 2 \/ status data = 6)%Z ->
  url data = Some u -> u <> "" ->
  http_get env u = Incoming 200 received false ->
  disk env = Healthy ->
  exec (handleOnlyOfficeCallback env data doc) disk0
  = (Never, <[fsPath (doc_uri doc) := received]> disk0,
     [ HttpGet u; CreateWriteStream (fsPath (doc_uri doc));
       Write (fsPath (doc_uri doc)) received ]).
Proof.
  intros Hst Hurl Hne Hget Hdisk.
  rewrite (ProviderFacts.handle_ready env data doc disk0 u Hst Hurl Hne).
  rewrite saveDocument_cases, Hget, Hdisk. reflexivity.
Qed.

(** Closes the goals on an effect list that is known. *)
Ltac posts_case :=
  simpl; repeat split;
  try discriminate; try lia; try congruence;
  try (let m := fresh "m" in
       let Hin := fresh "Hin" in
       let Heq := fresh "Heq" in
       intros m Hin;
       repeat (destruct Hin as [Heq | Hin];
               [first [discriminate Heq | rewrite Heq; reflexivity] |]);
       destruct Hin).

(** X16. For a payload that has properties the reconciler never rejects:
    a failed save is caught and told to the webview.  It posts at most one
    message, as its last effect, and exactly one when the save settles.
    For [null] it rejects with a [TypeError] before any effect, and posts
    nothing. *)
Theorem reconciler_posts_once env data doc disk0 :
  let '(o, disk1, es) := exec (handleOnlyOfficeCallback env data doc) disk0 in
  let posts := List.filter (fun e => match e with PostMessage _ => true | _ => false end) es in
  (forall err, o <> Rejected err)
  /\ (forall thrown, o <> Thrown thrown)
  /\ length posts <= 1
  /\ (forall m, In (PostMessage m) es -> last es = Some (PostMessage m))
  /\ (o = Resolved -> es <> [] -> length posts = 1)
  /\ (o = Never -> posts = [])
  /\ (forall w,
        run env (Null, doc) w
        = (Thrown (Error_toString "TypeError"
                     "Cannot read properties of null (reading 'status')"), w))
  /\ (forall w, run env (Value data, doc) w = handleOnlyOfficeCallback env data doc w).
Proof.
  destruct (handle_cases env data doc disk0) as [(u & _ & _ & _ & ->) | [_ ->]].
  - rewrite saveDocument_cases. cbv zeta.
    destruct (http_get env u)
      as [err | code received ended | thrown | received err];
      [posts_case | | posts_case |].
    + destruct (code =? 200)%Z; [| posts_case].
      destruct (disk env) as [ | open_err | written write_err ];
        [destruct ended | |]; posts_case.
    + destruct (disk env) as [ | open_err | written write_err ]; posts_case.
  - posts_case.
Qed.



End SaveProperties.

(** * Properties of editor sessions *)

Module SessionProperties.

Import FileServer PptxEditorProvider.

Local Notation "s ^ t" := (String.append s t) (at level 30, right associativity).

(** A computation started on a world with earlier effects and unlinks
    under way appends its own to them and is otherwise the computation on
    the bare disk. *)
Lemma saveDocument_appends env downloadUrl target w :
  saveDocument env downloadUrl target w
  = let '(o, w1) := saveDocument env downloadUrl target (fresh (files w)) in
    (o, {| files := files w1;
           effects := (effects w ++ effects w1)%list;
           unlinking := (unlinking w ++ unlinking w1)%list |}).
Proof.
  unfold fresh, saveDocument, createWriteStream, write, unlink, issue_unlink,
    emit, update, mbind, mret, M_bind, M_ret, bind, ret; simpl.
  destruct (http_get env downloadUrl)
    as [err | code received ended | thrown | received err]; simpl;
    rewrite ?app_nil_r; try reflexivity.
  - destruct (negb (code =? 200)%Z); simpl; rewrite ?app_nil_r; [reflexivity |].
    destruct (disk env) as [ | open_err | written write_err ]; [destruct ended | |];
      simpl; rewrite <- ?app_assoc, ?app_nil_r; reflexivity.
  - destruct (disk env) as [ | open_err | written write_err ];
      simpl; rewrite <- ?app_assoc, ?app_nil_r; reflexivity.
Qed.

Lemma handle_appends env data doc w :
  handleOnlyOfficeCallback env data doc w
  = let '(o, w1) := handleOnlyOfficeCallback env data doc (fresh (files w)) in
    (o, {| files := files w1;
           effects := (effects w ++ effects w1)%list;
           unlinking := (unlinking w ++ unlinking w1)%list |}).
Proof.
  unfold handleOnlyOfficeCallback.
  destruct ((status data =? 2)%Z || (status data =? 6)%Z);
    [| unfold fresh, ret; simpl; rewrite !app_nil_r; destruct w; reflexivity].
  destruct (url data) as [[ | c u ]|];
    try (unfold fresh, ret; simpl; rewrite !app_nil_r; destruct w; reflexivity).
  unfold mbind, M_bind, bind.
  rewrite (saveDocument_appends env (String c u) (doc_uri doc) w).
  destruct (saveDocument env (String c u) (doc_uri doc) (fresh (files w)))
    as [o w1].
  destruct o; unfold mret, M_ret, ret, emit; simpl; rewrite <- ?app_assoc; reflexivity.
Qed.

Section Sessions.

Context `{Runtime}.

Lemma paired_same_maps (fs fs' : FileServer Job) :
  servedFiles fs' = servedFiles fs ->
  callbackHandlers fs' = callbackHandlers fs ->
  paired fs -> paired fs'.
Proof. unfold paired. intros -> ->. auto. Qed.

Lemma new_paired interfaces : paired (new interfaces).
Proof. intros token. left. split; apply lookup_empty. Qed.

Lemma session_step_paired fs e : paired fs -> paired (session_step fs e).
Proof.
  intros Hp. destruct e as [ | a | err | random document | t | ]; simpl.
  - apply (paired_same_maps fs); [| | exact Hp];
      unfold start; destruct (server fs); reflexivity.
  - apply (paired_same_maps fs); [| | exact Hp];
      unfold on_listening; destruct (server fs); try reflexivity;
      destruct a; reflexivity.
  - apply (paired_same_maps fs); [reflexivity | reflexivity | exact Hp].
  - intros token. simpl.
    destruct (decide (Js.toString_hex random = token)) as [<- | Hne].
    + right. eexists document, _. rewrite !lookup_insert_eq. repeat split.
    + rewrite !lookup_insert_ne by exact Hne. apply Hp.
  - intros token. simpl.
    destruct (decide (t = token)) as [<- | Hne].
    + left. rewrite !lookup_delete_eq. auto.
    + rewrite !lookup_delete_ne by exact Hne. apply Hp.
  - unfold stop. destruct (server fs); [| exact Hp].
    intros token. left. simpl. split; apply lookup_empty.
Qed.

Lemma sessions_paired events : forall fs, paired fs -> paired (sessions events fs).
Proof.
  induction events as [ | e events IH ]; intros fs Hp; simpl.
  - exact Hp.
  - apply IH, session_step_paired, Hp.
Qed.

(** X18. However editors are opened and closed and the server started,
    stopped or failing, a token has a record exactly when it has a handler,
    and no bound handler can throw into the server. *)
Theorem sessions_keep_registry_paired interfaces events :
  let fs := sessions events (new interfaces) in
  paired fs
  /\ dom (servedFiles fs) = dom (callbackHandlers fs)
  /\ asynchronous fs.
Proof.
  intros fs.
  assert (paired fs) as Hp by (apply sessions_paired, new_paired).
  clearbody fs.
  split; [exact Hp | split].
  - apply set_eq. intros token. rewrite !elem_of_dom.
    destruct (Hp token) as [[-> ->] | (document & record & -> & _ & ->)].
    + split; intros [x Hx]; discriminate Hx.
    + split; intros _; eexists; reflexivity.
  - intros token handler data Hh.
    destruct (Hp token) as [[_ Hnone] | (document & record & _ & _ & Hsome)].
    + assert (Some handler = None) as Habs
          by (etransitivity; [symmetry; exact Hh | exact Hnone]).
      discriminate Habs.
    + assert (Some handler = Some (callbackHandler document)) as Heq
          by (etransitivity; [symmetry; exact Hh | exact Hsome]).
      injection Heq as ->. discriminate.
Qed.

(** X19. In every such state a callback whose body parses is answered
    with 200 and [error] 0.  The work it spawns carries the parsed payload
    and the document whose file is registered under the token; for a token
    without a record, a closed panel's for one, nothing is spawned. *)
Theorem session_callback_targets_registered_file interfaces events files t sent data :
  let fs := sessions events (new interfaces) in
  JSON_parse (String.concat "" sent) = Some data ->
  let '(res, job) := handleRequest files (POST_callback t sent) fs in
  res = respond 200 [("Content-Type", HStr "application/json")]
          (Text ("{" ^ Js.dquote ^ "error" ^ Js.dquote ^ ":0}"))
  /\ match job with
     | Some (payload, document) =>
         payload = data
         /\ exists record, servedFiles fs !! t = Some record
                           /\ uri record = doc_uri document
     | None => servedFiles fs !! t = None
     end.
Proof.
  intros fs Hparse.
  assert (paired fs) as Hp by (apply sessions_paired, new_paired).
  clearbody fs.
  rewrite FileServerFacts.route_POST_callback. unfold handleCallback. simpl.
  rewrite Hparse.
  match goal with
  | |- context [match ?bound with Some _ => _ | None => _ end] =>
      destruct bound as [handler|] eqn:Hh
  end;
    destruct (Hp t) as [[Hfile Hnone] | (document & record & Hfile & Huri & Hsome)].
  - assert (Some handler = None) as Habs
        by (etransitivity; [symmetry; exact Hh | exact Hnone]).
    discriminate Habs.
  - assert (Some handler = Some (callbackHandler document)) as Heq
        by (etransitivity; [symmetry; exact Hh | exact Hsome]).
    injection Heq as ->. simpl.
    split; [reflexivity | split; [reflexivity |]].
    exists record. auto.
  - split; [reflexivity | exact Hfile].
  - assert (None = Some (callbackHandler document)) as Habs
        by (etransitivity; [symmetry; exact Hh | exact Hsome]).
    discriminate Habs.
Qed.

(** X20. A save callback on the session's callback route replaces the
    file of the session's document, and the file route of the same session
    then serves the bytes just saved, with their length, when Node accepts
    the disposition naming the file, and answers 500 when it does not. *)
Theorem saved_bytes_are_served
    env random document files0 fs w sent data u received :
  JSON_parse (String.concat "" sent) = Some (Value data) ->
  (status data = 2 \/ status data = 6)%Z ->
  url data = Some u -> u <> "" ->
  http_get env u = Incoming 200 received true ->
  disk env = Healthy ->
  let '(fs', s) := resolveCustomEditor random document files0 fs in
  let '(res, o, w') :=
    serve env (POST_callback (reg_token (registration s)) sent) fs' w in
  statusCode res = 200%Z
  /\ o = Some Resolved
  /\ files w' = <[fsPath (doc_uri document) := received]> (files w)
  /\ handleRequest (files w') (GET_file (reg_token (registration s))) fs'
     = (if validHeaderValue ("attachment; filename=" ^ Js.dquote
                               ^ basename (fsPath (doc_uri document)) ^ Js.dquote)
        then
          respond 200
            [ ("Content-Type",
                HStr match mimeTypes (Js.toLowerCase
                                        (extname (fsPath (doc_uri document)))) with
                     | Some m => m
                     | None => "application/octet-stream"
                     end);
              ("Content-Length", HNum (N.of_nat (length received)));
              ("Content-Disposition",
                HStr ("attachment; filename=" ^ Js.dquote
                        ^ basename (fsPath (doc_uri document)) ^ Js.dquote)) ]
            (Stream received)
        else
          respond 500
            [ ("Content-Type", HStr "text/plain");
              ("Content-Length", HNum (N.of_nat (length received))) ]
            (Text "Error reading file"), None).
Proof.
  intros Hparse Hst Hurl Hne Hget Hdisk.
  unfold resolveCustomEditor.
  destruct (registerFile random (doc_uri document) fs) as [fs1 r] eqn:Hreg.
  assert (r = snd (registerFile random (doc_uri document) fs)) as Hr
      by (rewrite Hreg; reflexivity).
  assert (fs1 = fst (registerFile random (doc_uri document) fs)) as Hfs1
      by (rewrite Hreg; reflexivity).
  assert (reg_token r = Js.toString_hex random) as Htoken by (rewrite Hr; reflexivity).
  cbn [registration].
  unfold serve. rewrite FileServerFacts.route_POST_callback.
  unfold handleCallback. simpl. rewrite Hparse, lookup_insert_eq.
  unfold callbackHandler, run. simpl.
  rewrite handle_appends.
  destruct (SaveProperties.handle_run env data document (files w))
    as [(u' & _ & Hurl' & _ & ->) | [Hnot _]];
    [| exfalso; apply Hnot; split; [exact Hst | exists u; auto]].
  assert (u' = u) as -> by congruence.
  rewrite SaveProperties.saveDocument_run, Hget, Hdisk. simpl.
  split; [reflexivity | split; [reflexivity | split; [reflexivity |]]].
  rewrite FileServerFacts.route_GET_file. unfold serveFile. simpl.
  rewrite Htoken, Hfs1.
  rewrite FileServerFacts.registerFile_record. simpl.
  rewrite lookup_insert_eq.
  destruct (validHeaderValue _); reflexivity.
Qed.

(** X21. When [resolveCustomEditor] runs to its end (the document is on
    the disk, so that its key can be computed), closing the panel forgets
    the token: the file route answers 404 and a callback spawns nothing,
    other tokens are as they were before the session, and when the token
    was new the whole server is back in the state before the session.
    When the document is not on the disk, [resolveCustomEditor] throws
    after the registration and before the hook: closing the panel changes
    nothing, and the record and the handler stay. *)
Theorem closed_session_is_forgotten random document files0 fs files sent :
  let '(fs', s) := resolveCustomEditor random document files0 fs in
  let token := reg_token (registration s) in
  let closed := onDidDispose s fs' in
  (is_Some (files0 !! fsPath (doc_uri document)) ->
     handleRequest files (GET_file token) closed
     = (respond 404 [("Content-Type", HStr "text/plain")] (Text "File not found"),
        None)
     /\ snd (handleRequest files (POST_callback token sent) closed) = None
     /\ (forall t, t <> token ->
           servedFiles closed !! t = servedFiles fs !! t
           /\ callbackHandlers closed !! t = callbackHandlers fs !! t)
     /\ (servedFiles fs !! token = None ->
         callbackHandlers fs !! token = None ->
         closed = fs))
  /\ (files0 !! fsPath (doc_uri document) = None ->
      hooked s = false
      /\ closed = fs'
      /\ (exists record, servedFiles closed !! token = Some record
                         /\ filePath record = fsPath (doc_uri document))
      /\ callbackHandlers closed !! token = Some (callbackHandler document)).
Proof.
  unfold resolveCustomEditor.
  destruct (registerFile random (doc_uri document) fs) as [fs1 r] eqn:Hreg.
  assert (r = snd (registerFile random (doc_uri document) fs)) as Hr
      by (rewrite Hreg; reflexivity).
  assert (fs1 = fst (registerFile random (doc_uri document) fs)) as Hfs1
      by (rewrite Hreg; reflexivity).
  assert (reg_token r = Js.toString_hex random) as Htoken by (rewrite Hr; reflexivity).
  subst fs1. cbn [registration]. rewrite Htoken.
  unfold onDidDispose, generateDocumentKey_returns. cbn [hooked registration].
  rewrite Htoken. clear Hreg Hr Htoken.
  split.
  - intros [content ->].
    split; [| split; [| split]].
    + rewrite FileServerFacts.route_GET_file. unfold serveFile. simpl.
      rewrite lookup_delete_eq. reflexivity.
    + rewrite FileServerFacts.route_POST_callback. unfold handleCallback. simpl.
      rewrite lookup_delete_eq. destruct (JSON_parse _); reflexivity.
    + intros t Ht. simpl.
      rewrite !lookup_delete_ne by congruence.
      rewrite !lookup_insert_ne by congruence. auto.
    + intros Hfile Hhandler.
      apply FileServerFacts.FileServer_eq; simpl; try reflexivity.
      * rewrite delete_insert_eq. apply delete_id, Hfile.
      * rewrite delete_insert_eq. apply delete_id, Hhandler.
  - intros ->. split; [reflexivity | split; [reflexivity | split]].
    + eexists. split; [simpl; apply lookup_insert_eq | reflexivity].
    + simpl. apply lookup_insert_eq.
Qed.

End Sessions.

End SessionProperties.

(** * Properties of the webview text *)

Module HtmlProperties.

Import FileServer PptxEditorProvider.

Local Notation "s ^ t" := (String.append s t) (at level 30, right associativity).

(** *** Appending *)

Lemma append_assoc (a b c : string) : (a ^ b) ^ c = a ^ (b ^ c).
Proof.
  induction a as [ | x a IH ]; [reflexivity |].
  change (String x ((a ^ b) ^ c) = String x (a ^ (b ^ c))). rewrite IH. reflexivity.
Qed.

Lemma append_empty (a : string) : a ^ "" = a.
Proof.
  induction a as [ | x a IH ]; [reflexivity |].
  change (String x (a ^ "") = String x a). rewrite IH. reflexivity.
Qed.

Lemma length_append (a b : string) :
  String.length (a ^ b) = String.length a + String.length b.
Proof.
  induction a as [ | x a IH ]; [reflexivity |].
  change (S (String.length (a ^ b)) = S (String.length a + String.length b)).
  rewrite IH. reflexivity.
Qed.

Lemma chars_append (a b : string) :
  list_ascii_of_string (a ^ b)
  = (list_ascii_of_string a ++ list_ascii_of_string b)%list.
Proof.
  induction a as [ | x a IH ]; [reflexivity |].
  change (x :: list_ascii_of_string (a ^ b)
          = x :: (list_ascii_of_string a ++ list_ascii_of_string b)%list).
  rewrite IH. reflexivity.
Qed.

(** *** [escapeHtml] *)

Lemma replace_all_append c r a b :
  Js.replace_all c r (a ^ b) = Js.replace_all c r a ^ Js.replace_all c r b.
Proof.
  induction a as [ | x a IH ]; [reflexivity |].
  change (Js.replace_all c r (String x (a ^ b))
          = Js.replace_all c r (String x a) ^ Js.replace_all c r b).
  cbn [Js.replace_all].
  destruct (Ascii.eqb x c); rewrite IH.
  - symmetry. apply append_assoc.
  - reflexivity.
Qed.

Lemma escapeHtml_append a b : escapeHtml (a ^ b) = escapeHtml a ^ escapeHtml b.
Proof. unfold escapeHtml. rewrite !replace_all_append. reflexivity. Qed.

Lemma escapeHtml_one c :
  escapeHtml (String c "")
  = if Ascii.eqb c "&" then "&amp;"
    else if Ascii.eqb c "<" then "&lt;"
    else if Ascii.eqb c ">" then "&gt;"
    else if Ascii.eqb c "034" then "&quot;"
    else if Ascii.eqb c "039" then "&#039;"
    else String c "".
Proof.
  destruct (Ascii.eqb_spec c "&") as [-> | Hamp]; [reflexivity |].
  destruct (Ascii.eqb_spec c "<") as [-> | Hlt]; [reflexivity |].
  destruct (Ascii.eqb_spec c ">") as [-> | Hgt]; [reflexivity |].
  destruct (Ascii.eqb_spec c "034") as [-> | Hquot]; [reflexivity |].
  destruct (Ascii.eqb_spec c "039") as [-> | Hapos]; [reflexivity |].
  apply Ascii.eqb_neq in Hamp, Hlt, Hgt, Hquot, Hapos.
  unfold escapeHtml. simpl.
  rewrite Hamp. simpl. rewrite Hlt. simpl. rewrite Hgt. simpl.
  rewrite Hquot. simpl. rewrite Hapos. reflexivity.
Qed.

(** X22. The five replacements of [escapeHtml] amount to one pass that
    translates each character on its own: the ampersands of the entities
    that later replacements would seem to touch are never escaped twice,
    and characters outside the five are kept. *)
Theorem escapeHtml_by_character c s :
  escapeHtml "" = ""
  /\ escapeHtml (String c s)
     = (if Ascii.eqb c "&" then "&amp;"
        else if Ascii.eqb c "<" then "&lt;"
        else if Ascii.eqb c ">" then "&gt;"
        else if Ascii.eqb c "034" then "&quot;"
        else if Ascii.eqb c "039" then "&#039;"
        else String c "") ^ escapeHtml s.
Proof.
  split; [reflexivity |].
  change (String c s) with (String c "" ^ s).
  rewrite escapeHtml_append, escapeHtml_one. reflexivity.
Qed.

Lemma escapeHtml_cons c s :
  escapeHtml (String c s) = escapeHtml (String c "") ^ escapeHtml s.
Proof. change (String c s) with (String c "" ^ s). apply escapeHtml_append. Qed.

(** X23. The text that [escapeHtml] returns holds no [<], no [>] and
    neither kind of quote, whatever the input. *)
Theorem escapeHtml_no_markup s :
  Forall (fun c : ascii => c <> "<" /\ c <> ">" /\ c <> "034" /\ c <> "039")%char
    (list_ascii_of_string (escapeHtml s)).
Proof.
  induction s as [ | c s IH ]; [constructor |].
  rewrite escapeHtml_cons, chars_append. apply Forall_app. split; [| exact IH].
  rewrite escapeHtml_one.
  destruct (Ascii.eqb_spec c "&") as [-> | Hamp];
    [repeat constructor; discriminate |].
  destruct (Ascii.eqb_spec c "<") as [-> | Hlt];
    [repeat constructor; discriminate |].
  destruct (Ascii.eqb_spec c ">") as [-> | Hgt];
    [repeat constructor; discriminate |].
  destruct (Ascii.eqb_spec c "034") as [-> | Hquot];
    [repeat constructor; discriminate |].
  destruct (Ascii.eqb_spec c "039") as [-> | Hapos];
    [repeat constructor; discriminate |].
  repeat constructor; assumption.
Qed.

(** X24. [escapeHtml] loses nothing: different texts have different
    escaped forms. *)
Theorem escapeHtml_injective s1 s2 : escapeHtml s1 = escapeHtml s2 -> s1 = s2.
Proof.
  revert s2. induction s1 as [ | c1 s1 IH ]; intros [ | c2 s2 ] Heq.
  - reflexivity.
  - rewrite escapeHtml_cons, escapeHtml_one in Heq.
    repeat (destruct (Ascii.eqb c2 _); [discriminate Heq |]). discriminate Heq.
  - rewrite escapeHtml_cons, escapeHtml_one in Heq.
    repeat (destruct (Ascii.eqb c1 _); [discriminate Heq |]). discriminate Heq.
  - rewrite (escapeHtml_cons c1), (escapeHtml_cons c2), !escapeHtml_one in Heq.
    destruct (Ascii.eqb_spec c1 "&") as [-> | Hamp1];
      [| destruct (Ascii.eqb_spec c1 "<") as [-> | Hlt1];
         [| destruct (Ascii.eqb_spec c1 ">") as [-> | Hgt1];
            [| destruct (Ascii.eqb_spec c1 "034") as [-> | Hquot1];
               [| destruct (Ascii.eqb_spec c1 "039") as [-> | Hapos1]]]]];
      (destruct (Ascii.eqb_spec c2 "&") as [-> | Hamp2];
       [| destruct (Ascii.eqb_spec c2 "<") as [-> | Hlt2];
          [| destruct (Ascii.eqb_spec c2 ">") as [-> | Hgt2];
             [| destruct (Ascii.eqb_spec c2 "034") as [-> | Hquot2];
                [| destruct (Ascii.eqb_spec c2 "039") as [-> | Hapos2]]]]]);
      simpl in Heq; try discriminate Heq;
      injection Heq as Heq; subst; try congruence;
      f_equal; apply IH; assumption.
Qed.

(** *** The title *)

Lemma split_pop_from_spec sep segment s :
  Forall (fun c => c <> sep) (list_ascii_of_string segment) ->
  Forall (fun c => c <> sep) (list_ascii_of_string (Js.split_pop_from sep segment s))
  /\ exists before,
      segment ^ s = before ^ Js.split_pop_from sep segment s
      /\ (before = "" \/ exists d, before = d ^ String sep "").
Proof.
  revert segment. induction s as [ | a s IH ]; intros segment Hseg.
  - split; [exact Hseg |]. exists "". rewrite append_empty. auto.
  - cbn [Js.split_pop_from]. destruct (Ascii.eqb_spec a sep) as [-> | Hne].
    + destruct (IH "" (List.Forall_nil _)) as [Hno (before & Hsplit & Hend)].
      split; [exact Hno |].
      exists (segment ^ String sep before). split.
      * rewrite append_assoc.
        change (String sep before ^ Js.split_pop_from sep "" s)
          with (String sep (before ^ Js.split_pop_from sep "" s)).
        rewrite <- Hsplit. reflexivity.
      * right. destruct Hend as [-> | [d ->]].
        -- exists segment. reflexivity.
        -- exists (segment ^ String sep d).
           rewrite append_assoc. reflexivity.
    + assert (Forall (fun c => c <> sep)
                (list_ascii_of_string (segment ^ String a ""))) as Hseg'.
      { rewrite chars_append. apply Forall_app. split; [exact Hseg |].
        repeat constructor. exact Hne. }
      destruct (IH _ Hseg') as [Hno (before & Hsplit & Hend)].
      split; [exact Hno |].
      exists before. split; [| exact Hend].
      rewrite <- Hsplit, append_assoc. reflexivity.
Qed.

(** X25. The title of the webview is the part of the URI path after its
    last slash, and [Presentation] when there is no such part (an empty
    path, or one that ends in a slash); it is never empty and holds no
    slash. *)
Theorem fileName_is_last_segment u :
  fileName u <> ""
  /\ Forall (fun c : ascii => c <> "/"%char) (list_ascii_of_string (fileName u))
  /\ ((exists before,
          path u = before ^ fileName u
          /\ (before = "" \/ exists d, before = d ^ "/"))
      \/ (fileName u = "Presentation"
          /\ (path u = "" \/ exists d, path u = d ^ "/"))).
Proof.
  unfold fileName, Js.split_pop.
  destruct (split_pop_from_spec "/" "" (path u) (List.Forall_nil _))
    as [Hno (before & Hsplit & Hend)].
  change ("" ^ path u) with (path u) in Hsplit.
  destruct (Js.split_pop_from "/" "" (path u)) as [ | c rest ] eqn:Hpop; simpl.
  - split; [discriminate | split].
    + repeat constructor; discriminate.
    + right. split; [reflexivity |].
      rewrite append_empty in Hsplit. rewrite Hsplit. exact Hend.
  - split; [discriminate | split; [exact Hno |]].
    left. exists before. auto.
Qed.

(** *** The nonce *)

Lemma charAt_in_range s i :
  i < String.length s ->
  exists c, Js.charAt s i = String c "" /\ In c (list_ascii_of_string s).
Proof.
  revert i. induction s as [ | a s IH ]; intros i Hi; simpl in Hi; [lia |].
  destruct i as [ | i ].
  - exists a. split; [reflexivity | left; reflexivity].
  - destruct (IH i) as (c & Hc & Hin); [lia |].
    exists c. split; [exact Hc | right; exact Hin].
Qed.

Lemma getNonce_rounds_spec (P : ascii -> Prop) draw bound :
  (forall c, In c (list_ascii_of_string possible) -> P c) ->
  forall rounds i text,
    i + rounds <= bound ->
    (forall k, k < bound -> draw k < 62) ->
    Forall P (list_ascii_of_string text) ->
    String.length (getNonce_rounds draw i rounds text) = String.length text + rounds
    /\ Forall P (list_ascii_of_string (getNonce_rounds draw i rounds text)).
Proof.
  intros HP rounds. induction rounds as [ | rounds IH ]; intros i text Hi Hdraw Htext.
  - simpl. split; [lia | exact Htext].
  - cbn [getNonce_rounds].
    destruct (charAt_in_range possible (draw i)) as (c & Hc & Hin).
    { change (String.length possible) with 62. apply Hdraw. lia. }
    rewrite Hc.
    destruct (IH (S i) (text ^ String c "")) as [Hlen Hall]; [lia | exact Hdraw | |].
    + rewrite chars_append. apply Forall_app. split; [exact Htext |].
      repeat constructor. exact (HP c Hin).
    + split; [| exact Hall].
      rewrite Hlen, length_append. simpl. lia.
Qed.

(** X26. With each of its 32 draws an index into the 62 characters of
    [possible], the nonce has 32 characters, all of them letters or
    digits of [possible]. *)
Theorem getNonce_alphanumeric draw :
  (forall i, i < 32 -> draw i < 62) ->
  String.length (getNonce draw) = 32
  /\ Forall (fun c => In c (list_ascii_of_string possible))
       (list_ascii_of_string (getNonce draw)).
Proof.
  intros Hdraw. unfold getNonce.
  destruct (getNonce_rounds_spec
              (fun c => In c (list_ascii_of_string possible)) draw 32
              (fun c Hc => Hc) 32 0 "") as [Hlen Hall];
    [lia | exact Hdraw | constructor |].
  split; [exact Hlen | exact Hall].
Qed.

End HtmlProperties.

(** * The further properties on sample runs *)

Module MoreScenarios.

Import FileServer PptxEditorProvider Reference.

Local Notation "s ^ t" := (String.append s t) (at level 30, right associativity).

Example escape_sample :
  escapeHtml ("<a href='x'>R&D</a>")
  = "&lt;a href=&#039;x&#039;&gt;R&amp;D&lt;/a&gt;".
Proof. reflexivity. Qed.

Example escape_quote : escapeHtml Js.dquote = "&quot;".
Proof. reflexivity. Qed.

Example title_of_deck : fileName deck = "Talk.PPTX".
Proof. reflexivity. Qed.

Example title_of_directory :
  fileName {| fsPath := "/home/u/"; path := "/home/u/" |} = "Presentation".
Proof. reflexivity. Qed.

Example nonce_sample :
  getNonce (fun i => i + 20) = "UVWXYZabcdefghijklmnopqrstuvwxyz".
Proof. reflexivity. Qed.

Example loopback_without_network : getHostIp no_network = "127.0.0.1".
Proof. reflexivity. Qed.

(** A server with one session and a throwing handler under another
    token. *)
Example throwing_next_to_session :
  fst (handleRequest disk0 (POST_callback "beef" [status_body "1"])
         (onCallback "beef" throwing session))
  = respond 500 [("Content-Type", HStr "application/json")]
      (Text ("{" ^ Js.dquote ^ "error" ^ Js.dquote ^ ":1}")).
Proof. vm_compute. reflexivity. Qed.

Lemma work_only_from_callback_post_witness :
  method (POST_callback "000fa5ff" [save_body "2" download_url]) = "POST"
  /\ exists token handler data,
      Js.or_else (req_url (POST_callback "000fa5ff" [save_body "2" download_url])) "/"
      = "/callback/" ^ token
      /\ callbackHandlers session !! token = Some handler
      /\ JSON_parse
           (String.concat ""
              (chunks (POST_callback "000fa5ff" [save_body "2" download_url])))
         = Some data
      /\ handler data = Spawned (Value (payload 2 (Some download_url)), talk)
      /\ statusCode
           (fst (handleRequest disk0
                   (POST_callback "000fa5ff" [save_body "2" download_url]) session))
         = 200%Z.
Proof.
  apply (ServerProperties.work_only_from_callback_post disk0
           (POST_callback "000fa5ff" [save_body "2" download_url]) session
           (Value (payload 2 (Some download_url)), talk)).
  vm_compute. reflexivity.
Defined.

Lemma serveFile_missing_file_witness :
  handleRequest ∅ (GET_file "000fa5ff") session
  = (respond 500 [("Content-Type", HStr "text/plain")] (Text "Error reading file"),
     None).
Proof.
  apply (ServerProperties.serveFile_missing_file ∅ session "000fa5ff"
           {| filePath := "/home/u/Talk.PPTX"; uri := deck; token := "000fa5ff";
              mimeType :=
                "application/vnd.openxmlformats-officedocument.presentationml.presentation" |});
    vm_compute; reflexivity.
Defined.

Lemma throwing_handler_gets_500_witness :
  handleRequest disk0 (POST_callback "beef" [status_body "1"])
    (onCallback "beef" throwing session)
  = (respond 500 [("Content-Type", HStr "application/json")]
       (Text ("{" ^ Js.dquote ^ "error" ^ Js.dquote ^ ":1}")), None).
Proof.
  apply (ServerProperties.throwing_handler_gets_500 disk0
           (onCallback "beef" throwing session) "beef" [status_body "1"]
           throwing (Value (payload 1 None))); reflexivity.
Defined.

Lemma health_reports_port_witness :
  handleRequest disk0 {| method := "POST"; req_url := Some "/health"; chunks := [] |}
    session
  = (respond 200 [("Content-Type", HStr "application/json")]
       (Text ("{" ^ Js.quote "status" ^ ":" ^ Js.quote "ok" ^ ","
                ^ Js.quote "port" ^ ":" ^ Js.show_N (getPort session) ^ "}")), None).
Proof.
  apply (ServerProperties.health_reports_port disk0 session "POST" []).
  discriminate.
Defined.

Lemma registrations_coexist_witness :
  let r1 := registerFile seed deck bound in
  let r2 := registerFile seed2 sheet (fst r1) in
  reg_token (snd r1) <> reg_token (snd r2)
  /\ filePath <$> servedFiles (fst r2) !! reg_token (snd r1) = Some (fsPath deck)
  /\ filePath <$> servedFiles (fst r2) !! reg_token (snd r2) = Some (fsPath sheet).
Proof.
  apply (ServerProperties.registrations_coexist seed seed2 deck sheet bound).
  discriminate.
Defined.

Lemma served_type_matches_path_witness :
  header "Content-Type"
    (fst (handleRequest disk0 (GET_file "000fa5ff")
            (after [CallStart; SocketListening (AddressInfo 49152);
                    CallRegisterFile seed deck] (new (J := Job) eth0))))
  = Some (HStr "application/vnd.openxmlformats-officedocument.presentationml.presentation").
Proof.
  pose proof (ServerProperties.served_type_matches_path (J := Job) eth0
                [CallStart; SocketListening (AddressInfo 49152);
                 CallRegisterFile seed deck]
                disk0 "000fa5ff"
                {| filePath := "/home/u/Talk.PPTX"; uri := deck; token := "000fa5ff";
                   mimeType :=
                     "application/vnd.openxmlformats-officedocument.presentationml.presentation" |}
                old_bytes) as Hthm.
  cbv zeta in Hthm.
  destruct Hthm as (_ & _ & _ & Hheader);
    [vm_compute; reflexivity | vm_compute; reflexivity | exact Hheader].
Defined.

Lemma request_error_leaves_disk_witness :
  exec (saveDocument env_refused download_url deck) disk0
  = (Rejected "connect ECONNREFUSED 127.0.0.1:8080", disk0, [HttpGet download_url])
  /\ exec (handleOnlyOfficeCallback env_bad_url (payload 2 (Some "nowhere")) talk) disk0
     = (Resolved, disk0,
        [ HttpGet "nowhere";
          PostMessage (SaveComplete false (Some "TypeError: Invalid URL")) ]).
Proof.
  split.
  - apply (proj1 (SaveProperties.request_error_leaves_disk
                    env_refused download_url deck disk0)
             "connect ECONNREFUSED 127.0.0.1:8080").
    reflexivity.
  - apply (proj1 (proj2 (SaveProperties.request_error_leaves_disk
                           env_bad_url "nowhere" deck disk0))
             "TypeError: Invalid URL" eq_refl);
      [left; reflexivity | reflexivity | discriminate | reflexivity].
Defined.

Lemma open_failure_unlinks_earlier_file_witness :
  disk0 !! fsPath deck = Some old_bytes
  /\ let '(o, disk1, es) := exec (saveDocument env_read_only download_url deck) disk0 in
     o = Rejected "EACCES: permission denied, open"
     /\ disk1 !! fsPath deck = None.
Proof.
  split; [vm_compute; reflexivity |].
  pose proof (SaveProperties.open_failure_unlinks_earlier_file
                env_read_only download_url deck disk0 new_bytes true
                "EACCES: permission denied, open" eq_refl eq_refl) as Hthm.
  destruct (exec (saveDocument env_read_only download_url deck) disk0)
    as [[o disk1] es].
  destruct Hthm as (Ho & Hnone & _). auto.
Defined.

Lemma broken_download_never_settles_witness :
  exec (handleOnlyOfficeCallback env_cut_off (payload 6 (Some download_url)) talk) disk0
  = (Never, <[fsPath deck := take 2 new_bytes]> disk0,
     [ HttpGet download_url; CreateWriteStream (fsPath deck);
       Write (fsPath deck) (take 2 new_bytes) ]).
Proof.
  apply (SaveProperties.broken_download_never_settles env_cut_off
           (payload 6 (Some download_url)) talk disk0 download_url (take 2 new_bytes));
    [right; reflexivity | reflexivity | discriminate | reflexivity | reflexivity].
Defined.

Lemma session_callback_targets_registered_file_witness :
  let fs := sessions [AwaitStart; Bound (AddressInfo 49152); Opened seed talk disk0;
                      Opened seed2 budget disk0; Closed "000fa5ff"] (new eth0) in
  let '(res, job) :=
    handleRequest disk0 (POST_callback "01020304" [save_body "2" download_url]) fs in
  res = respond 200 [("Content-Type", HStr "application/json")]
          (Text ("{" ^ Js.dquote ^ "error" ^ Js.dquote ^ ":0}"))
  /\ match job with
     | Some (payload, document) =>
         payload = Value (Reference.payload 2 (Some download_url))
         /\ exists record, servedFiles fs !! "01020304" = Some record
                           /\ uri record = doc_uri document
     | None => servedFiles fs !! "01020304" = None
     end.
Proof.
  apply (SessionProperties.session_callback_targets_registered_file eth0
           [AwaitStart; Bound (AddressInfo 49152); Opened seed talk disk0;
            Opened seed2 budget disk0; Closed "000fa5ff"]
           disk0 "01020304" [save_body "2" download_url]
           (Value (Reference.payload 2 (Some download_url)))).
  reflexivity.
Defined.

Lemma saved_bytes_are_served_witness :
  let '(fs', s) := resolveCustomEditor seed talk disk0 bound in
  let '(res, o, w') :=
    serve env_ok (POST_callback (reg_token (registration s))
                    [save_body "6" download_url]) fs' world0 in
  statusCode res = 200%Z
  /\ o = Some Resolved
  /\ files w' !! fsPath deck = Some new_bytes
  /\ body (fst (handleRequest (files w') (GET_file (reg_token (registration s))) fs'))
     = Stream new_bytes.
Proof.
  pose proof (SessionProperties.saved_bytes_are_served env_ok seed talk disk0 bound
                world0 [save_body "6" download_url] (payload 6 (Some download_url))
                download_url new_bytes eq_refl (or_intror eq_refl) eq_refl
                ltac:(discriminate) eq_refl eq_refl) as Hthm.
  destruct (resolveCustomEditor seed talk disk0 bound) as [fs' s].
  destruct (serve env_ok (POST_callback (reg_token (registration s))
                            [save_body "6" download_url])
              fs' world0) as [[res o] w'].
  destruct Hthm as (Hres & Ho & Hfiles & Hget).
  split; [exact Hres | split; [exact Ho | split]].
  - rewrite Hfiles. apply lookup_insert_eq.
  - rewrite Hget. reflexivity.
Defined.


Lemma closed_session_is_forgotten_witness :
  onDidDispose (snd (resolveCustomEditor seed talk disk0 bound))
    (fst (resolveCustomEditor seed talk disk0 bound)) = bound
  /\ onDidDispose (snd (resolveCustomEditor seed missing disk0 bound))
       (fst (resolveCustomEditor seed missing disk0 bound))
     = fst (resolveCustomEditor seed missing disk0 bound).
Proof.
  split.
  - pose proof (SessionProperties.closed_session_is_forgotten
                  seed talk disk0 bound disk0 []) as Hthm.
    destruct (resolveCustomEditor seed talk disk0 bound) as [fs' s] eqn:Heq.
    destruct Hthm as [Hpresent _].
    destruct (Hpresent ltac:(eexists; vm_compute; reflexivity))
      as (_ & _ & _ & Hback).
    simpl. apply Hback;
      (replace s with (snd (resolveCustomEditor seed talk disk0 bound))
         by (rewrite Heq; reflexivity));
      vm_compute; reflexivity.
  - pose proof (SessionProperties.closed_session_is_forgotten
                  seed missing disk0 bound disk0 []) as Hthm.
    destruct (resolveCustomEditor seed missing disk0 bound) as [fs' s].
    destruct Hthm as [_ Habsent].
    destruct (Habsent ltac:(vm_compute; reflexivity)) as (_ & Hsame & _).
    exact Hsame.
Defined.

(** A session on a document that is not on the disk: the key cannot be
    computed, and the token outlives the panel. *)
Example unhooked_session_keeps_token :
  let '(fs', s) := resolveCustomEditor seed missing disk0 bound in
  hooked s = false
  /\ is_Some (servedFiles (onDidDispose s fs') !! "000fa5ff").
Proof. vm_compute. split; [reflexivity | eexists; reflexivity]. Qed.

(** A [null] body parses, is answered with success, and the work it
    leaves rejects. *)
Example null_payload :
  serve env_ok (POST_callback "000fa5ff" ["null"]) session world0
  = (respond 200 [("Content-Type", HStr "application/json")]
       (Text ("{" ^ Js.dquote ^ "error" ^ Js.dquote ^ ":0}")),
     Some (Thrown "TypeError: Cannot read properties of null (reading 'status')"),
     world0).
Proof. vm_compute. reflexivity. Qed.

(** A connection reset in the middle of the body: the failure is posted
    with the part that arrived in the target, and no unlink is issued. *)
Example reset_leaves_part :
  handleOnlyOfficeCallback env_reset (payload 2 (Some download_url)) talk world0
  = (Resolved,
     {| files := <[fsPath deck := take 2 new_bytes]> disk0;
        effects := [ HttpGet download_url; CreateWriteStream (fsPath deck);
                     Write (fsPath deck) (take 2 new_bytes);
                     PostMessage
                       (SaveComplete false (Some "Error: read ECONNRESET")) ];
        unlinking := [] |}).
Proof. vm_compute. reflexivity. Qed.

Lemma escapeHtml_injective_witness : "a<b" = "a<b".
Proof. apply (HtmlProperties.escapeHtml_injective "a<b" "a<b"). reflexivity. Defined.

Lemma getNonce_alphanumeric_witness :
  String.length (getNonce (fun i => i + 20)) = 32
  /\ Forall (fun c => In c (list_ascii_of_string possible))
       (list_ascii_of_string (getNonce (fun i => i + 20))).
Proof.
  apply (HtmlProperties.getNonce_alphanumeric (fun i => i + 20)).
  intros i Hi. cbv beta. lia.
Defined.

End MoreScenarios.
